(** * Legacy mainframe record codec (reader.py, generator.py, app.py)

    Shallow embedding of the 83-byte record format: EBCDIC (code page 037)
    text fields, COMP-3 packed-decimal amounts, the file reader
    [parse_mainframe_file] and the writer [dataframe_to_dat]; the record
    generation of generator.py and the analysis step of app.py, with the
    random draws and the models' verdicts as arguments.

    Python [str] values are lists of Unicode code points ([list N]);
    Python [bytes] are lists of [Byte.byte]; Python [int] is [Z], with
    CPython's default limit of 4300 digits on [str(n)] and [int(s)] in the
    packed-decimal codec. *)

From Stdlib Require Import Strings.String.
From Stdlib Require Import List NArith ZArith Lia Bool.
From Stdlib Require Import Strings.Byte.
From Stdlib Require Strings.Ascii.
Import ListNotations.

(** Option sequencing: a raised exception is [None]. *)
Notation "'let?' x := a 'in' b" :=
  (match a with Some x => b | None => None end)
  (at level 200, x name, a at level 100, b at level 200).

(** ** Python string helpers *)

(** [str.isspace] as used by [str.strip()] with no argument. *)
Definition py_isspace (c : N) : bool :=
  (((9 <=? c) && (c <=? 13)) || ((28 <=? c) && (c <=? 32))
  || (c =? 133) || (c =? 160) || (c =? 5760)
  || ((8192 <=? c) && (c <=? 8202))
  || (c =? 8232) || (c =? 8233) || (c =? 8239) || (c =? 8287)
  || (c =? 12288))%N.

Fixpoint lstrip (s : list N) : list N :=
  match s with
  | [] => []
  | c :: s' => if py_isspace c then lstrip s' else s
  end.

(** [s.strip()]: leading and trailing whitespace removed. *)
Definition py_strip (s : list N) : list N := rev (lstrip (rev (lstrip s))).

(** [f"{s:<w}"]: left-aligned, padded with spaces to at least [w]
    characters; a longer [s] is left as it is. *)
Definition ljust (s : list N) (w : nat) : list N :=
  s ++ repeat 32%N (w - length s).

(** ** Code page 037 ([codecs.encode/decode(..., "cp037")]) *)

Module Cp037.

(** [decoding_table[b]] is the code point of byte [b]. *)
Definition decoding_table : list N := [
   0; 1; 2; 3; 156; 9; 134; 127; 151; 141; 142; 11; 12; 13; 14; 15;
   16; 17; 18; 19; 157; 133; 8; 135; 24; 25; 146; 143; 28; 29; 30; 31;
   128; 129; 130; 131; 132; 10; 23; 27; 136; 137; 138; 139; 140; 5; 6; 7;
   144; 145; 22; 147; 148; 149; 150; 4; 152; 153; 154; 155; 20; 21; 158; 26;
   32; 160; 226; 228; 224; 225; 227; 229; 231; 241; 162; 46; 60; 40; 43; 124;
   38; 233; 234; 235; 232; 237; 238; 239; 236; 223; 33; 36; 42; 41; 59; 172;
   45; 47; 194; 196; 192; 193; 195; 197; 199; 209; 166; 44; 37; 95; 62; 63;
   248; 201; 202; 203; 200; 205; 206; 207; 204; 96; 58; 35; 64; 39; 61; 34;
   216; 97; 98; 99; 100; 101; 102; 103; 104; 105; 171; 187; 240; 253; 254; 177;
   176; 106; 107; 108; 109; 110; 111; 112; 113; 114; 170; 186; 230; 184; 198; 164;
   181; 126; 115; 116; 117; 118; 119; 120; 121; 122; 161; 191; 208; 221; 222; 174;
   94; 163; 165; 183; 169; 167; 182; 188; 189; 190; 91; 93; 175; 168; 180; 215;
   123; 65; 66; 67; 68; 69; 70; 71; 72; 73; 173; 244; 246; 242; 243; 245;
   125; 74; 75; 76; 77; 78; 79; 80; 81; 82; 185; 251; 252; 249; 250; 255;
   92; 247; 83; 84; 85; 86; 87; 88; 89; 90; 178; 212; 214; 210; 211; 213;
   48; 49; 50; 51; 52; 53; 54; 55; 56; 57; 179; 219; 220; 217; 218; 159
]%N.

(** The charmap decoder: a byte without an entry raises. *)
Definition decode_byte (b : byte) : option N :=
  nth_error decoding_table (N.to_nat (Byte.to_N b)).

Fixpoint decode (bs : list byte) : option (list N) :=
  match bs with
  | [] => Some []
  | b :: bs' =>
      let? c := decode_byte b in
      let? s := decode bs' in
      Some (c :: s)
  end.

Fixpoint index_of (c : N) (t : list N) (i : nat) : option nat :=
  match t with
  | [] => None
  | x :: t' => if (x =? c)%N then Some i else index_of c t' (S i)
  end.

(** The encoding map is the inverse of the decoding table; a character
    with no entry raises [UnicodeEncodeError]. *)
Definition encode_char (c : N) : option byte :=
  let? i := index_of c decoding_table 0 in Byte.of_nat i.

Fixpoint encode (s : list N) : option (list byte) :=
  match s with
  | [] => Some []
  | c :: s' =>
      let? b := encode_char c in
      let? bs := encode s' in
      Some (b :: bs)
  end.

(** The round-trip check of one code point. *)
Definition char_rt_ok (c : N) : bool :=
  match encode_char c with
  | Some b => match decode_byte b with Some c' => (c' =? c)%N | None => false end
  | None => false
  end.

End Cp037.

(** The text field codec as used by the record functions:
    [codecs.encode(f"{value:<width}", "cp037")] and
    [codecs.decode(raw, "cp037").strip()]. *)
Definition encode_text (value : list N) (width : nat) : option (list byte) :=
  Cp037.encode (ljust value width).

Definition decode_text (raw : list byte) : option (list N) :=
  let? s := Cp037.decode raw in Some (py_strip s).

(** ** generator.py: [pack_comp3] *)

(** Decimal digits of [n], least significant first ([fuel] bounds the
    number of digits). *)
Fixpoint dec_digits_rev (fuel : nat) (n : N) : list N :=
  match fuel with
  | O => []
  | S f => if (n <? 10)%N then [n] else (n mod 10)%N :: dec_digits_rev f (n / 10)
  end.

(** [str(n)] for a non-negative [int], as its list of digit values. *)
Definition py_str_N (n : N) : list N :=
  rev (dec_digits_rev (S (N.to_nat (N.size n))) n).

(** CPython's limit on the number of decimal digits of an [int]/[str]
    conversion (the default of [sys.get_int_max_str_digits()]): [str(n)]
    of an int of more digits, and [int(s)] of a string of more digits,
    raise [ValueError]. *)
Definition int_max_str_digits : nat := 4300.

(** [str(n)] for a non-negative [int], with the digit limit. *)
Definition py_str (n : N) : option (list N) :=
  let s := py_str_N n in
  if (length s <=? int_max_str_digits)%nat then Some s else None.

(** [s.zfill(w)] for a string of digits. *)
Definition zfill (s : list N) (w : nat) : list N :=
  repeat 0%N (w - length s) ++ s.

(** [int(digits[i] + digits[i + 1], 16)] for [i] in
    [range(0, len(digits) - 1, 2)]. *)
Fixpoint pair_values (digits : list N) : list N :=
  match digits with
  | d1 :: d2 :: rest => (d1 * 16 + d2)%N :: pair_values rest
  | _ => []
  end.

(** [bytearray.append(v)]: raises [ValueError] unless [0 <= v < 256]. *)
Definition bytearray_append (packed : option (list byte)) (v : N)
  : option (list byte) :=
  let? buf := packed in
  let? b := Byte.of_N v in
  Some (buf ++ [b]).

Definition pack_comp3 (number : Z) (width : nat) : option (list byte) :=
  let? s := py_str (Z.to_N (Z.abs number)) in
  let digits := zfill s (width * 2 - 1) in
  let packed := fold_left bytearray_append (pair_values digits) (Some []) in
  let sign := if (0 <=? number)%Z then 12%N else 13%N in
  bytearray_append packed (N.lor (N.shiftl (last digits 0%N) 4) sign).

(** ** reader.py: [unpack_comp3] *)

(** [raw.hex()] as its list of nibbles: high then low nibble of every byte.
    A hex character [c] satisfies [c.isdigit()] exactly when its nibble is
    below 10, and [c.upper() == 'D'] exactly when its nibble is 13. *)
Definition hex_nibbles (raw : list byte) : list N :=
  flat_map (fun b => [N.shiftr (Byte.to_N b) 4; N.land (Byte.to_N b) 15]) raw.

Definition is_digit_nibble (c : N) : bool := (c <? 10)%N.

(** The value of a string of decimal digits. *)
Definition py_int_dec (digits : list N) : N :=
  fold_left (fun acc d => acc * 10 + d)%N digits 0%N.

(** [int(digits)] for a non-empty string of decimal digits, with the
    digit limit. *)
Definition py_int (digits : list N) : option N :=
  if (length digits <=? int_max_str_digits)%nat then Some (py_int_dec digits) else None.

Definition unpack_comp3 (raw : list byte) : option Z :=
  let h := hex_nibbles raw in
  match h with
  | [] => None (* h[-1] raises IndexError *)
  | _ :: _ =>
      let sign := last h 0%N in
      let digits := filter is_digit_nibble (removelast h) in
      let? val := match digits with
                  | [] => Some 0%Z
                  | _ :: _ => let? n := py_int digits in Some (Z.of_N n)
                  end in
      Some (if (sign =? 13)%N then (- val)%Z else val)
  end.

(** ** The record and its 83-byte layout *)

(** The dictionary [{"id": ..., "name": ..., "amount": ..., "text": ...}]. *)
Record record := mk_record {
  rec_id : list N;
  name : list N;
  amount : Z;
  text : list N
}.

(** generator.py: [create_ebcdic_record]. *)
Definition create_ebcdic_record (rec_id name : list N) (amount : Z)
  (log_text : list N) : option (list byte) :=
  let? a := Cp037.encode (ljust rec_id 10) in
  let? b := Cp037.encode (ljust name 20) in
  let? c := pack_comp3 amount 3 in
  let? d := Cp037.encode (ljust log_text 50) in
  Some (a ++ b ++ c ++ d).

Definition serialize (r : record) : option (list byte) :=
  create_ebcdic_record (rec_id r) (name r) (amount r) (text r).

(** [chunk[i:j]]. *)
Definition slice (i j : nat) (l : list byte) : list byte :=
  firstn (j - i) (skipn i l).

(** The body of the [try] block of [parse_mainframe_file] for one chunk. *)
Definition parse_chunk (chunk : list byte) : option record :=
  let? rec_id := decode_text (slice 0 10 chunk) in
  let? name := decode_text (slice 10 30 chunk) in
  let? amt := unpack_comp3 (slice 30 33 chunk) in
  let? log := decode_text (slice 33 83 chunk) in
  Some (mk_record rec_id name amt log).

(** ** reader.py: [parse_mainframe_file] *)

(** The line printed by the [except] branch ("bad record, skipping"). *)
Inductive diag := BadRecord.

Definition rec_len : nat := 83.

(** One pass of [while chunk := f.read(rec_len)] per step over the
    remaining file contents; [fuel] bounds the number of reads. The result
    pairs the appended records with the diagnostics printed, both in file
    order. *)
Fixpoint parse_loop (fuel : nat) (src : list byte) : list record * list diag :=
  match fuel with
  | O => ([], [])
  | S fuel' =>
      let chunk := firstn rec_len src in
      match chunk with
      | [] => ([], [])
      | _ :: _ =>
          if Nat.ltb (length chunk) rec_len then ([], [])
          else
            let '(rs, ds) := parse_loop fuel' (skipn rec_len src) in
            match parse_chunk chunk with
            | Some r => (r :: rs, ds)
            | None => (rs, BadRecord :: ds)
            end
      end
  end.

(** The file contents [src]; each read consumes at least one byte, so
    [length src] reads are enough. *)
Definition parse_mainframe_file (src : list byte) : list record * list diag :=
  parse_loop (length src) src.

(** ** app.py: [dataframe_to_dat] *)

(** Rows already hold a [str] id, name and text and an [int] amount, so the
    [str(...)] and [int(...)] conversions are the identity; an exception
    from [create_ebcdic_record] leaves the function with no result. *)
Fixpoint dataframe_to_dat_loop (rows : list record) (buf : list byte)
  : option (list byte) :=
  match rows with
  | [] => Some buf
  | row :: rows' =>
      let? record := create_ebcdic_record (rec_id row) (name row) (amount row) (text row) in
      dataframe_to_dat_loop rows' (buf ++ record)
  end.

Definition dataframe_to_dat (rows : list record) : option (list byte) :=
  dataframe_to_dat_loop rows [].

(** ** Sample values *)

(** ASCII text as code points. *)
Definition ascii_str (s : String.string) : list N :=
  map (fun a => N.of_nat (Ascii.nat_of_ascii a)) (String.list_ascii_of_string s).
Arguments ascii_str s%_string.

(** Every code point of a string is in code page 037. *)
Definition in_cp037 (s : list N) : Prop := Forall (fun c => (c < 256)%N) s.

(** No leading and no trailing [str.isspace] character. *)
Definition no_edge_space (s : list N) : Prop :=
  match s with
  | [] => True
  | c :: _ => py_isspace c = false /\ py_isspace (last s 0%N) = false
  end.

(** A record within the widths and magnitude of the layout. *)
Definition within_layout (r : record) : Prop :=
  (length (rec_id r) <= 10)%nat /\ (length (name r) <= 20)%nat
  /\ (length (text r) <= 50)%nat /\ (Z.abs (amount r) <= 99999)%Z.

(** The full [rec_len]-byte chunks at the start of [src], [n] of them. *)
Fixpoint full_chunks (n : nat) (src : list byte) : list (list byte) :=
  match n with
  | O => []
  | S n' => firstn rec_len src :: full_chunks n' (skipn rec_len src)
  end.

(** Each record serialized, in order; the first failure fails all. *)
Fixpoint serialize_all (rows : list record) : option (list (list byte)) :=
  match rows with
  | [] => Some []
  | r :: rs =>
      let? b := serialize r in
      let? bs := serialize_all rs in
      Some (b :: bs)
  end.

(** A record that fits the layout: widths, magnitude and code page. *)
Definition layout_ok (r : record) : Prop :=
  within_layout r /\ in_cp037 (rec_id r) /\ in_cp037 (name r) /\ in_cp037 (text r).

(** A record [create_ebcdic_record] can encode whatever its widths: code
    page 037 characters and an amount [str()] prints (fewer than 4301
    digits). *)
Definition encodable (r : record) : Prop :=
  in_cp037 (rec_id r) /\ in_cp037 (name r) /\ in_cp037 (text r)
  /\ (Z.abs (amount r) < 10 ^ 4300)%Z.

(** A field longer than its width, or an amount of more than five digits. *)
Definition oversize (r : record) : Prop :=
  (10 < length (rec_id r))%nat \/ (20 < length (name r))%nat
  \/ (50 < length (text r))%nat \/ (99999 < Z.abs (amount r))%Z.

(** [l] with its byte at [i] replaced by [b]. *)
Definition corrupt_at (i : nat) (b : byte) (l : list byte) : list byte :=
  firstn i l ++ b :: skipn (S i) l.

Definition sample_records : list record := [
  mk_record (ascii_str "1") (ascii_str "Alice") 100 (ascii_str "CONFIRM: ok");
  mk_record (ascii_str "2") (ascii_str "SRV-DB-01") (-50) (ascii_str "ERROR: disk fail");
  mk_record (ascii_str "3") (ascii_str "Bob") 9999 (ascii_str "AUDIT: passed");
  mk_record (ascii_str "4") (ascii_str "NODE-NET-07") 0 (ascii_str "INFO: idle");
  mk_record (ascii_str "5") (ascii_str "Carol") (-99999) (ascii_str "TRANSFER: done")
]%Z.

(** The five sample records as written by [dataframe_to_dat]. *)
Definition sample_source : list byte :=
  match dataframe_to_dat sample_records with Some bs => bs | None => [] end.

(** Record 2's amount bytes [09 99 9C] with the middle byte turned into
    [9A]: a non-digit nibble in a digit position. *)
Definition corrupted_source : list byte :=
  corrupt_at (rec_len * 2 + 31) x9a sample_source.

(** A record the writer and the reader carry unchanged: it fits the layout
    and its text fields have no edge whitespace. *)
Definition clean_record (r : record) : Prop :=
  layout_ok r /\ no_edge_space (rec_id r) /\ no_edge_space (name r)
  /\ no_edge_space (text r).

(** ** Decimal formatting of [int]s as text

    These format counts, row numbers and small random numbers ([len(df)],
    [idx + 1], [randint(1, 99)]), which never reach the 4300 digits of
    [int_max_str_digits]: the digit limit is left out here. *)

(** The characters of a list of digit values. *)
Definition digit_chars (ds : list N) : list N := map (fun d => d + 48)%N ds.

(** [str(n)] for a non-negative [int], as text. *)
Definition str_of_N (n : N) : list N := digit_chars (py_str_N n).

(** [f"{n:0wd}"] for a non-negative [int]. *)
Definition format_0d (n : N) (w : nat) : list N := digit_chars (zfill (py_str_N n) w).

(** [sub in s] (also [Series.str.contains(sub)] for a pattern with no
    regular-expression metacharacter). *)
Fixpoint py_startswith (s p : list N) : bool :=
  match p, s with
  | [], _ => true
  | c :: p', d :: s' => (c =? d)%N && py_startswith s' p'
  | _ :: _, [] => false
  end.

Fixpoint py_contains (s sub : list N) : bool :=
  py_startswith s sub || match s with [] => false | _ :: s' => py_contains s' sub end.

(** ** generator.py: record generation *)

(** [_KEYWORDS]: keyword, weight and source type. *)
Definition _KEYWORDS : list (list N * nat * list N) := [
  (ascii_str "ERROR", 20%nat, ascii_str "system");
  (ascii_str "WARN", 10%nat, ascii_str "system");
  (ascii_str "DEBUG", 10%nat, ascii_str "system");
  (ascii_str "FAULT", 5%nat, ascii_str "system");
  (ascii_str "CONFIRM", 15%nat, ascii_str "person");
  (ascii_str "AUDIT", 10%nat, ascii_str "person");
  (ascii_str "APPROVED", 10%nat, ascii_str "person");
  (ascii_str "NOTICE", 5%nat, ascii_str "system");
  (ascii_str "ALERT", 5%nat, ascii_str "system");
  (ascii_str "INFO", 5%nat, ascii_str "system");
  (ascii_str "TRANSFER", 5%nat, ascii_str "person")
].

(** [[k for k, w, _ in _KEYWORDS for _ in range(w)]]. *)
Definition _KW_LIST : list (list N) :=
  flat_map (fun '(k, w, _) => repeat k w) _KEYWORDS.

(** [_KW_SOURCE[k]] for [{k: s for k, _, s in _KEYWORDS}]: a later entry
    overrides an earlier one; a missing key raises [KeyError]. *)
Definition _KW_SOURCE (k : list N) : option (list N) :=
  fold_left (fun acc '(k', _, s) =>
    if list_eq_dec N.eq_dec k k' then Some s else acc) _KEYWORDS None.

Definition prefixes : list (list N) :=
  map ascii_str ["SRV"; "NODE"; "PROC"; "BATCH"; "HOST"; "CORE"; "JOB"; "SPOOL"]%string.

Definition zones : list (list N) :=
  map ascii_str ["MAIN"; "DB"; "NET"; "AUTH"; "TXN"; "LEDGER"; "DISK"; "MEM"]%string.

(** [_system_name()]: [prefix = random.choice(prefixes)],
    [zone = random.choice(zones)] and [n = random.randint(1, 99)] are the
    random draws. *)
Definition _system_name (prefix zone : list N) (n : N) : list N :=
  prefix ++ [45%N] ++ zone ++ [45%N] ++ format_0d n 2.

(** [text.split("\n")[0]]. *)
Fixpoint first_line (s : list N) : list N :=
  match s with
  | [] => []
  | c :: s' => if (c =? 10)%N then [] else c :: first_line s'
  end.

(** [generate_log(keyword)] after the model call: [generated_text] is
    [result[0]["generated_text"]]. *)
Definition generate_log (keyword generated_text : list N) : list N :=
  let text := py_strip generated_text in
  let text := py_strip (first_line text) in
  let text := filter (fun c => (32 <=? c) && (c <? 127))%N text in
  match text with
  | [] => keyword ++ ascii_str ": system event"
  | _ :: _ => firstn 50 text
  end.

(** The random draws of one [generate_record] call. *)
Record draw := mk_draw {
  keyword : list N;          (* random.choice(_KW_LIST) *)
  generated_text : list N;   (* the text-generation pipeline's output *)
  sys_prefix : list N;       (* the draws of _system_name() *)
  sys_zone : list N;
  sys_n : N;
  person_name : list N;      (* fake.name() *)
  draw_amount : Z            (* random.randint(100, 9999) *)
}.

(** [generate_record(rec_id)]: [(str(rec_id), name, amount, log_text)]. *)
Definition generate_record (rec_id : nat) (d : draw) : option (list N * list N * Z * list N) :=
  let log_text := generate_log (keyword d) (generated_text d) in
  let? src := _KW_SOURCE (keyword d) in
  let name :=
    if list_eq_dec N.eq_dec src (ascii_str "system")
    then _system_name (sys_prefix d) (sys_zone d) (sys_n d)
    else person_name d in
  Some (str_of_N (N.of_nat rec_id), name, draw_amount d, log_text).

(** The [__main__] loop [for i in range(50)], one draw per iteration: the
    bytes written to [legacy_mainframe.dat], and whether the loop ran to its
    end ([false]: an exception stopped it after the bytes written so far). *)
Fixpoint generate_main_loop (i : nat) (draws : list draw) : list byte * bool :=
  match draws with
  | [] => ([], true)
  | d :: ds =>
      match generate_record i d with
      | None => ([], false)
      | Some (rec_id, name, amount, log_text) =>
          match create_ebcdic_record rec_id name amount log_text with
          | None => ([], false)
          | Some bs => let '(rest, ok) := generate_main_loop (S i) ds in (bs ++ rest, ok)
          end
      end
  end.

Definition generate_main (draws : list draw) : list byte * bool :=
  generate_main_loop 0 draws.

(** ** app.py: the analysis step *)

Definition green_tier : list N := 128994%N :: ascii_str " Green (Important)".
Definition yellow_tier : list N := 128993%N :: ascii_str " Yellow (Quarantine)".
Definition red_tier : list N := 128308%N :: ascii_str " Red (Absolute ROT)".

(** A row of [st.session_state.data] after the analysis: the record with
    its ["Tier"] and ["PII_Count"] columns. *)
Record trow := mk_trow {
  row : record;
  tier : list N;
  pii_count : nat
}.

Section Analysis.

(** The models' verdicts on a record's text: [is_important txt] is
    [top_label == CLASS_LABELS[0] and top_score >= 0.50] for the zero-shot
    classifier's result, and [pii_hits txt] is
    [len(pii_analyzer.analyze(text=txt, ...))]. *)
Variable is_important : list N -> bool.
Variable pii_hits : list N -> nat.

(** The body of the classification loop for one row: [(tier, pii_count)]. *)
Definition classify (txt : list N) : list N * nat :=
  if is_important txt then (green_tier, 0%nat)
  else
    let pii_count := pii_hits txt in
    if Nat.ltb 0 pii_count then (yellow_tier, pii_count) else (red_tier, pii_count).

(** [f"SYSTEM-{idx + 1:03d}"]. *)
Definition system_id (idx : nat) : list N :=
  ascii_str "SYSTEM-" ++ format_0d (N.of_nat (idx + 1)) 3.

(** [for idx in range(len(data)): if "Green" not in tiers[idx]:
    data.at[idx, "name"] = f"SYSTEM-{idx + 1:03d}"] from position [idx]. *)
Fixpoint rename_loop (idx : nat) (data : list trow) : list trow :=
  match data with
  | [] => []
  | t :: ts =>
      let t' :=
        if negb (py_contains (tier t) (ascii_str "Green")) then
          let r := row t in
          mk_trow (mk_record (rec_id r) (system_id idx) (amount r) (text r)) (tier t) (pii_count t)
        else t in
      t' :: rename_loop (S idx) ts
  end.

(** The analysis of [df] (a [RangeIndex]ed frame of the reader's records):
    the classification loop, the new columns, then the renaming. *)
Definition run_analysis (df : list record) : list trow :=
  let results := map (fun r => classify (text r)) df in
  let tiers := map fst results in
  let pii_counts := map snd results in
  let data := map (fun '(r, (t, p)) => mk_trow r t p) (combine df (combine tiers pii_counts)) in
  rename_loop 0 data.

End Analysis.

(** [df_all[df_all["Tier"].str.contains(word)]]. *)
Definition tier_df (word : list N) (df_all : list trow) : list trow :=
  filter (fun t => py_contains (tier t) word) df_all.

Definition green_df (df_all : list trow) : list trow := tier_df (ascii_str "Green") df_all.
Definition yellow_df (df_all : list trow) : list trow := tier_df (ascii_str "Yellow") df_all.
Definition red_df (df_all : list trow) : list trow := tier_df (ascii_str "Red") df_all.

(** [sep.join(parts)]. *)
Fixpoint py_join (sep : list N) (parts : list (list N)) : list N :=
  match parts with
  | [] => []
  | [p] => p
  | p :: ps => p ++ sep ++ py_join sep ps
  end.

(** [build_summary(tier_df)] for a frame that has the ["PII_Count"] column
    (every tier frame after the analysis). *)
Definition build_summary (tier_df : list trow) : list N :=
  let n := length tier_df in
  if Nat.eqb n 0 then ascii_str "No records in this category."
  else
    let pii_flags := fold_left Nat.add (map pii_count tier_df) 0%nat in
    let parts := if Nat.eqb pii_flags 0 then []
                 else [str_of_N (N.of_nat pii_flags) ++ ascii_str " PII detections"] in
    match parts with
    | _ :: _ =>
        str_of_N (N.of_nat n) ++ ascii_str " records " ++ [8212%N] ++ ascii_str " "
        ++ py_join (ascii_str ", ") parts ++ ascii_str "."
    | [] => str_of_N (N.of_nat n) ++ ascii_str " records."
    end.

(** ** Helpers for stating properties of the analysis *)

Definition GREEN : list N := ascii_str "Green".
Definition YELLOW : list N := ascii_str "Yellow".
Definition RED : list N := ascii_str "Red".

(** The tier and PII count a row can carry after the analysis. *)
Definition tier_ok (t : trow) : Prop :=
  (tier t = green_tier /\ pii_count t = 0%nat)
  \/ (tier t = yellow_tier /\ (0 < pii_count t)%nat)
  \/ (tier t = red_tier /\ pii_count t = 0%nat).

(** The rows of the classification loop with their new columns, before
    the renaming. *)
Definition pre_rows imp pii (df : list record) : list trow :=
  map (fun r => mk_trow r (fst (classify imp pii (text r))) (snd (classify imp pii (text r)))) df.

(** The random draws [generate_record] can make: a keyword of [_KW_LIST],
    a prefix and a zone of the lists of [_system_name], [randint(1, 99)] and
    [randint(100, 9999)]; and a [fake.name()] that fits the name field. *)
Definition draw_ok (d : draw) : Prop :=
  In (keyword d) _KW_LIST /\ In (sys_prefix d) prefixes /\ In (sys_zone d) zones
  /\ (1 <= sys_n d <= 99)%N /\ (100 <= draw_amount d <= 9999)%Z
  /\ in_cp037 (person_name d) /\ (length (person_name d) <= 20)%nat
  /\ no_edge_space (person_name d).

(** ** Code page 037 facts *)

Module Cp037Facts.
Import Cp037.

Lemma char_rt_all : forallb Cp037.char_rt_ok (map N.of_nat (seq 0 256)) = true.
Proof. vm_compute. reflexivity. Qed.

Lemma table_lt : forallb (fun c => (c <? 256)%N) decoding_table = true.
Proof. reflexivity. Qed.

Lemma table_length : length decoding_table = 256%nat.
Proof. reflexivity. Qed.

Lemma encode_char_ok c :
  (c < 256)%N -> exists b, encode_char c = Some b /\ decode_byte b = Some c.
Proof.
  intros Hc.
  pose proof char_rt_all as H. rewrite forallb_forall in H.
  assert (Hin : In c (map N.of_nat (seq 0 256))).
  { apply in_map_iff. exists (N.to_nat c). rewrite N2Nat.id.
    split; [reflexivity|apply in_seq; lia]. }
  specialize (H c Hin). unfold Cp037.char_rt_ok in H.
  destruct (encode_char c) as [b|]; [|discriminate H].
  destruct (decode_byte b) as [c'|] eqn:Hd; [|discriminate H].
  apply N.eqb_eq in H. exists b. rewrite Hd, H. auto.
Qed.

Lemma index_of_in c t i k : index_of c t i = Some k -> In c t.
Proof.
  revert i. induction t as [|x t IH]; simpl; intros i H; [discriminate|].
  destruct (N.eqb_spec x c); [left; assumption|right; eapply IH; eassumption].
Qed.

Lemma encode_char_lt c b : encode_char c = Some b -> (c < 256)%N.
Proof.
  unfold encode_char. destruct (index_of c decoding_table 0) eqn:Hi; [|discriminate].
  intros _. apply index_of_in in Hi.
  pose proof table_lt as H. rewrite forallb_forall in H.
  apply N.ltb_lt. apply H. exact Hi.
Qed.

Lemma decode_byte_ok b : exists c, decode_byte b = Some c /\ (c < 256)%N.
Proof.
  unfold decode_byte.
  destruct (nth_error decoding_table (N.to_nat (Byte.to_N b))) as [c|] eqn:Hn.
  - exists c. split; [reflexivity|].
    apply nth_error_In in Hn. pose proof table_lt as H. rewrite forallb_forall in H.
    apply N.ltb_lt. apply H. exact Hn.
  - exfalso. apply nth_error_None in Hn. rewrite table_length in Hn.
    pose proof (Byte.to_N_bounded b). lia.
Qed.

Lemma encode_ok s :
  in_cp037 s ->
  exists bs, encode s = Some bs /\ length bs = length s /\ decode bs = Some s.
Proof.
  induction 1 as [|c s Hc _ IH]; simpl.
  - exists []. auto.
  - destruct (encode_char_ok c Hc) as (b & Hb & Hdb).
    destruct IH as (bs & Hbs & Hlen & Hdec).
    rewrite Hb, Hbs. exists (b :: bs). simpl. rewrite Hdb, Hdec. auto.
Qed.

Lemma encode_in_cp037 s bs : encode s = Some bs -> in_cp037 s.
Proof.
  revert bs. induction s as [|c s IH]; simpl; intros bs H; constructor.
  - destruct (encode_char c) eqn:Hc; [|discriminate]. eapply encode_char_lt; eassumption.
  - destruct (encode_char c); [|discriminate].
    destruct (encode s) eqn:Hs; [|discriminate]. eapply IH; reflexivity.
Qed.

Lemma decode_ok bs : exists s, decode bs = Some s /\ length s = length bs.
Proof.
  induction bs as [|b bs IH]; simpl.
  - exists []. auto.
  - destruct (decode_byte_ok b) as (c & Hc & _). destruct IH as (s & Hs & Hl).
    rewrite Hc, Hs. exists (c :: s). simpl. auto.
Qed.

End Cp037Facts.

(** ** Strip facts *)

Lemma lstrip_spaces k l : lstrip (repeat 32%N k ++ l) = lstrip l.
Proof. induction k as [|k IH]; simpl; auto. Qed.

Lemma lstrip_keep c l : py_isspace c = false -> lstrip (c :: l) = c :: l.
Proof. simpl. intros ->. reflexivity. Qed.

Lemma strip_ljust_pad s k :
  no_edge_space s -> py_strip (s ++ repeat 32%N k) = s.
Proof.
  unfold py_strip. destruct s as [|c s']; intros H.
  - simpl. rewrite <- (app_nil_r (repeat 32%N k)), lstrip_spaces. reflexivity.
  - destruct H as [Hc Hl].
    rewrite <- app_comm_cons, lstrip_keep by exact Hc.
    rewrite app_comm_cons, rev_app_distr, rev_repeat, lstrip_spaces.
    assert (Hne : c :: s' <> []) by discriminate.
    set (l := c :: s') in *. clearbody l.
    rewrite (app_removelast_last 0%N Hne), rev_app_distr. simpl.
    rewrite Hl. simpl. rewrite rev_involutive. reflexivity.
Qed.

(** ** Decimal digits of [str(n)] *)

Module Digits.

Local Open Scope N_scope.

Lemma py_int_dec_snoc l d : py_int_dec (l ++ [d]) = py_int_dec l * 10 + d.
Proof. unfold py_int_dec. rewrite fold_left_app. reflexivity. Qed.

Lemma py_int_dec_zeros k l : py_int_dec (repeat 0 k ++ l) = py_int_dec l.
Proof.
  unfold py_int_dec. rewrite fold_left_app. f_equal.
  induction k as [|k IH]; simpl; [reflexivity|exact IH].
Qed.

Lemma pow10_succ k : 10 ^ N.of_nat (S k) = 10 * 10 ^ N.of_nat k.
Proof. rewrite Nat2N.inj_succ, N.pow_succ_r'. reflexivity. Qed.

Lemma pow10_pos k : 1 <= 10 ^ N.of_nat k.
Proof.
  induction k as [|k IH]; [reflexivity|]. rewrite pow10_succ. lia.
Qed.

Lemma digits_lt fuel n : Forall (fun d => d < 10) (dec_digits_rev fuel n).
Proof.
  revert n. induction fuel as [|f IH]; intros n; simpl; [constructor|].
  destruct (n <? 10) eqn:E.
  - constructor; [apply N.ltb_lt; exact E|constructor].
  - constructor; [apply N.mod_lt; discriminate|apply IH].
Qed.

Lemma digits_value fuel n :
  n < 10 ^ N.of_nat fuel -> py_int_dec (rev (dec_digits_rev fuel n)) = n.
Proof.
  revert n. induction fuel as [|f IH]; intros n Hn.
  - simpl in Hn. assert (n = 0) by lia. subst. reflexivity.
  - cbn [dec_digits_rev]. destruct (n <? 10) eqn:E; [reflexivity|].
    cbn [rev]. rewrite py_int_dec_snoc, IH.
    + pose proof (N.div_mod n 10 ltac:(discriminate)). lia.
    + rewrite pow10_succ in Hn. apply N.Div0.div_lt_upper_bound; exact Hn.
Qed.

Lemma digits_len_le fuel n k :
  (1 <= k)%nat -> n < 10 ^ N.of_nat k -> (length (dec_digits_rev fuel n) <= k)%nat.
Proof.
  revert n k. induction fuel as [|f IH]; intros n k Hk Hn; simpl; [lia|].
  destruct (n <? 10) eqn:E; simpl; [lia|].
  apply N.ltb_ge in E.
  destruct k as [|[|k]]; [lia| simpl in Hn; lia|].
  rewrite pow10_succ in Hn.
  assert (length (dec_digits_rev f (n / 10)) <= S k)%nat; [|lia].
  apply IH; [lia|]. apply N.Div0.div_lt_upper_bound; exact Hn.
Qed.

Lemma digits_len_ge fuel n k :
  n < 10 ^ N.of_nat fuel -> 10 ^ N.of_nat k <= n ->
  (k < length (dec_digits_rev fuel n))%nat.
Proof.
  revert n k. induction fuel as [|f IH]; intros n k Hn Hk.
  - simpl in Hn. pose proof (pow10_pos k). lia.
  - simpl. destruct (n <? 10) eqn:E.
    + apply N.ltb_lt in E. destruct k as [|k]; simpl; [lia|].
      rewrite pow10_succ in Hk. pose proof (pow10_pos k). lia.
    + simpl. destruct k as [|k]; [lia|].
      assert (k < length (dec_digits_rev f (n / 10)))%nat; [|lia].
      rewrite pow10_succ in Hn, Hk. apply IH.
      * apply N.Div0.div_lt_upper_bound; exact Hn.
      * apply N.div_le_lower_bound; [discriminate|exact Hk].
Qed.

Lemma fuel_enough n : n < 10 ^ N.of_nat (S (N.to_nat (N.size n))).
Proof.
  rewrite pow10_succ, N2Nat.id.
  pose proof (N.size_gt n).
  assert (2 ^ N.size n <= 10 ^ N.size n) by (apply N.pow_le_mono_l; lia).
  lia.
Qed.

Lemma py_str_value n : py_int_dec (py_str_N n) = n.
Proof. apply digits_value, fuel_enough. Qed.

Lemma py_str_digits n : Forall (fun d => d < 10) (py_str_N n).
Proof. apply Forall_rev, digits_lt. Qed.

Lemma py_str_len_le n k :
  (1 <= k)%nat -> n < 10 ^ N.of_nat k -> (length (py_str_N n) <= k)%nat.
Proof. intros. unfold py_str_N. rewrite length_rev. apply digits_len_le; assumption. Qed.

Lemma py_str_len_ge n k :
  10 ^ N.of_nat k <= n -> (k < length (py_str_N n))%nat.
Proof. intros. unfold py_str_N. rewrite length_rev. apply digits_len_ge; [apply fuel_enough|assumption]. Qed.

(** [str(n)] succeeds exactly below [10 ^ 4300]. *)
Lemma py_str_ok n k :
  (k <= int_max_str_digits)%nat -> n < 10 ^ N.of_nat k -> py_str n = Some (py_str_N n).
Proof.
  intros Hk Hn. unfold py_str.
  destruct (Nat.le_gt_cases k 0) as [Hk0|Hk0].
  - replace k with 0%nat in Hn by lia. change (10 ^ N.of_nat 0) with 1 in Hn.
    replace n with 0 by lia. reflexivity.
  - rewrite (proj2 (Nat.leb_le _ _)); [reflexivity|].
    apply (Nat.le_trans _ k); [apply py_str_len_le; [lia|exact Hn]|exact Hk].
Qed.

Lemma py_str_fail n :
  10 ^ N.of_nat int_max_str_digits <= n -> py_str n = None.
Proof.
  intros Hn. unfold py_str. rewrite (proj2 (Nat.leb_gt _ _)); [reflexivity|].
  apply py_str_len_ge. exact Hn.
Qed.

Lemma zfill_length s w : length (zfill s w) = ((w - length s) + length s)%nat.
Proof. unfold zfill. rewrite length_app, repeat_length. reflexivity. Qed.

Lemma zfill_digits s w :
  Forall (fun d => d < 10) s -> Forall (fun d => d < 10) (zfill s w).
Proof.
  intros H. unfold zfill. apply Forall_app. split; [|exact H].
  apply Forall_forall. intros x Hx. apply repeat_spec in Hx. subst. lia.
Qed.

Lemma five_digits n :
  n < 100000 ->
  exists a b c d e, zfill (py_str_N n) 5 = [a; b; c; d; e]
    /\ a < 10 /\ b < 10 /\ c < 10 /\ d < 10 /\ e < 10
    /\ py_int_dec [a; b; c; d; e] = n.
Proof.
  intros Hn.
  assert (Hle : (length (py_str_N n) <= 5)%nat) by (apply py_str_len_le; [lia|exact Hn]).
  assert (Hl : length (zfill (py_str_N n) 5) = 5%nat) by (rewrite zfill_length; lia).
  pose proof (zfill_digits _ 5 (py_str_digits n)) as Hd.
  assert (Hv : py_int_dec (zfill (py_str_N n) 5) = n)
    by (unfold zfill; rewrite py_int_dec_zeros; apply py_str_value).
  destruct (zfill (py_str_N n) 5) as [|a [|b [|c [|d [|e [|f l]]]]]];
    simpl in Hl; try lia.
  repeat rewrite Forall_cons_iff in Hd.
  destruct Hd as (Ha & Hb & Hc & Hd' & He & _).
  exists a, b, c, d, e. repeat split; assumption.
Qed.

End Digits.

(** ** Packed-decimal facts *)

Module Comp3.

Local Open Scope N_scope.

Lemma byte_of_small x : x <= 255 -> exists b, Byte.of_N x = Some b /\ Byte.to_N b = x.
Proof.
  intros Hx. destruct (Byte.of_N x) as [b|] eqn:E.
  - exists b. split; [reflexivity|]. apply Byte.to_of_N. exact E.
  - apply Byte.of_N_None_iff in E. lia.
Qed.

Lemma lor_sign e s :
  e < 10 -> (s = 12 \/ s = 13) -> N.lor (N.shiftl e 4) s = e * 16 + s.
Proof.
  intros He Hs.
  assert (e = 0 \/ e = 1 \/ e = 2 \/ e = 3 \/ e = 4 \/ e = 5 \/ e = 6 \/ e = 7
          \/ e = 8 \/ e = 9) as Hcase by lia.
  destruct Hs; repeat destruct Hcase as [-> | Hcase]; subst; reflexivity.
Qed.

Lemma nibbles_of x y : y < 16 -> N.shiftr (x * 16 + y) 4 = x /\ N.land (x * 16 + y) 15 = y.
Proof.
  intros Hy. rewrite N.shiftr_div_pow2. change 15 with (N.ones 4). rewrite N.land_ones.
  change (2 ^ 4) with 16. split.
  - symmetry. apply (N.div_unique _ _ _ y); [exact Hy|lia].
  - symmetry. apply (N.mod_unique _ _ x); [exact Hy|lia].
Qed.

Lemma hex_nibbles_byte b x y :
  Byte.to_N b = x * 16 + y -> y < 16 -> hex_nibbles [b] = [x; y].
Proof.
  intros Hb Hy. unfold hex_nibbles. cbn [flat_map]. rewrite app_nil_r, Hb.
  destruct (nibbles_of x y Hy) as [-> ->]. reflexivity.
Qed.

Lemma hex_nibbles_app l1 l2 : hex_nibbles (l1 ++ l2) = hex_nibbles l1 ++ hex_nibbles l2.
Proof. unfold hex_nibbles. apply flat_map_app. Qed.

Lemma hex_nibbles_div b : hex_nibbles [b] = [(Byte.to_N b / 16)%N; (Byte.to_N b mod 16)%N].
Proof.
  unfold hex_nibbles. cbn [flat_map]. rewrite app_nil_r, N.shiftr_div_pow2.
  change 15%N with (N.ones 4). rewrite N.land_ones. reflexivity.
Qed.

Lemma hex_nibbles_length raw : length (hex_nibbles raw) = (2 * length raw)%nat.
Proof.
  induction raw as [|b raw IH]; [reflexivity|].
  change (b :: raw) with ([b] ++ raw). rewrite hex_nibbles_app, length_app, IH.
  rewrite hex_nibbles_div. simpl. lia.
Qed.

Lemma removelast_length {A} (l : list A) : length (removelast l) = (length l - 1)%nat.
Proof.
  destruct l as [|x l]; [reflexivity|].
  rewrite (app_removelast_last x (l := x :: l)) at 2 by discriminate.
  rewrite length_app. simpl. lia.
Qed.

(** At most [2n - 1] digit nibbles in [n] bytes. *)
Lemma digit_count_le raw :
  (length (filter is_digit_nibble (removelast (hex_nibbles raw))) <= 2 * length raw - 1)%nat.
Proof.
  eapply Nat.le_trans; [apply filter_length_le|].
  rewrite removelast_length, hex_nibbles_length. lia.
Qed.

Lemma filter_all_digits l :
  Forall (fun d => d < 10) l -> filter is_digit_nibble l = l.
Proof.
  induction 1 as [|d l Hd _ IH]; cbn [filter]; [reflexivity|].
  rewrite IH. unfold is_digit_nibble at 1. apply N.ltb_lt in Hd. rewrite Hd. reflexivity.
Qed.

(** [pack_comp3 v 3] for an amount of at most five digits: three bytes
    holding the five zero-padded digits and the sign nibble. *)
Lemma pack_comp3_small v :
  (Z.abs v <= 99999)%Z ->
  exists a b c d e B1 B2 B3,
    pack_comp3 v 3 = Some [B1; B2; B3]
    /\ Byte.to_N B1 = a * 16 + b /\ Byte.to_N B2 = c * 16 + d
    /\ Byte.to_N B3 = e * 16 + (if (0 <=? v)%Z then 12 else 13)
    /\ a < 10 /\ b < 10 /\ c < 10 /\ d < 10 /\ e < 10
    /\ Z.of_N (py_int_dec [a; b; c; d; e]) = Z.abs v.
Proof.
  intros Hv.
  destruct (Digits.five_digits (Z.to_N (Z.abs v))) as
    (a & b & c & d & e & Hz & Ha & Hb & Hc & Hd & He & Hval); [lia|].
  unfold pack_comp3.
  rewrite (Digits.py_str_ok _ 5) by (unfold int_max_str_digits; lia || (change (10 ^ N.of_nat 5) with 100000; lia)).
  change (3 * 2 - 1)%nat with 5%nat. rewrite Hz.
  cbn [pair_values fold_left last].
  destruct (byte_of_small (a * 16 + b)) as (B1 & E1 & T1); [lia|].
  destruct (byte_of_small (c * 16 + d)) as (B2 & E2 & T2); [lia|].
  set (s := if (0 <=? v)%Z then 12 else 13).
  assert (Hs : s = 12 \/ s = 13) by (unfold s; destruct (0 <=? v)%Z; auto).
  rewrite (lor_sign e s He Hs).
  destruct (byte_of_small (e * 16 + s)) as (B3 & E3 & T3); [destruct Hs; lia|].
  unfold bytearray_append. rewrite E1, E2, E3.
  exists a, b, c, d, e, B1, B2, B3. repeat split; try assumption.
  rewrite Hval. lia.
Qed.

(** [unpack_comp3] on a non-empty input: the sign nibble is the last
    nibble and the digit string is the digit nibbles of all the others;
    [int()] raises past the digit limit. *)
Lemma unpack_comp3_eq raw :
  raw <> [] ->
  unpack_comp3 raw =
    (let ds := filter is_digit_nibble (removelast (hex_nibbles raw)) in
     if (length ds <=? int_max_str_digits)%nat then
       Some (let v := Z.of_N (py_int_dec ds) in
             if (last (hex_nibbles raw) 0 =? 13) then (- v)%Z else v)
     else None).
Proof.
  intros Hne. unfold unpack_comp3.
  destruct raw as [|b raw]; [contradiction|].
  cbn [hex_nibbles flat_map]. cbn [app].
  destruct (filter is_digit_nibble _); [reflexivity|].
  unfold py_int. destruct (_ <=? _)%nat; reflexivity.
Qed.

Lemma unpack_comp3_nonempty raw :
  raw <> [] ->
  (length (filter is_digit_nibble (removelast (hex_nibbles raw))) <= int_max_str_digits)%nat ->
  unpack_comp3 raw =
    Some (let v := Z.of_N (py_int_dec (filter is_digit_nibble (removelast (hex_nibbles raw)))) in
          if (last (hex_nibbles raw) 0 =? 13) then (- v)%Z else v).
Proof.
  intros Hne Hl. rewrite (unpack_comp3_eq raw Hne). cbv zeta.
  rewrite (proj2 (Nat.leb_le _ _) Hl). reflexivity.
Qed.

(** Up to 2150 bytes the digit limit is never reached. *)
Lemma unpack_comp3_short raw :
  raw <> [] -> (length raw <= 2150)%nat ->
  unpack_comp3 raw =
    Some (let v := Z.of_N (py_int_dec (filter is_digit_nibble (removelast (hex_nibbles raw)))) in
          if (last (hex_nibbles raw) 0 =? 13) then (- v)%Z else v).
Proof.
  intros Hne Hl. apply (unpack_comp3_nonempty raw Hne).
  pose proof (digit_count_le raw). unfold int_max_str_digits. lia.
Qed.

Lemma unpack_comp3_fail raw :
  raw <> [] ->
  (int_max_str_digits < length (filter is_digit_nibble (removelast (hex_nibbles raw))))%nat ->
  unpack_comp3 raw = None.
Proof.
  intros Hne Hl. rewrite (unpack_comp3_eq raw Hne). cbv zeta.
  rewrite (proj2 (Nat.leb_gt _ _) Hl). reflexivity.
Qed.

Lemma unpack_comp3_three B1 B2 B3 a b c d e s :
  hex_nibbles [B1; B2; B3] = [a; b; c; d; e; s] ->
  a < 10 -> b < 10 -> c < 10 -> d < 10 -> e < 10 ->
  unpack_comp3 [B1; B2; B3] =
    Some (let v := Z.of_N (py_int_dec [a; b; c; d; e]) in
          if (s =? 13) then (- v)%Z else v).
Proof.
  intros Hh Ha Hb Hc Hd He.
  rewrite unpack_comp3_short by (discriminate || (simpl; lia)). rewrite Hh.
  cbn [removelast last]. rewrite filter_all_digits; [reflexivity|].
  repeat constructor; assumption.
Qed.

(** The sign-fidelity round trip of a five-digit amount. *)
Lemma comp3_roundtrip v :
  (Z.abs v <= 99999)%Z ->
  exists bs, pack_comp3 v 3 = Some bs /\ length bs = 3%nat
    /\ unpack_comp3 bs = Some v
    /\ last (hex_nibbles bs) 0 = (if (0 <=? v)%Z then 12 else 13).
Proof.
  intros Hv.
  destruct (pack_comp3_small v Hv) as
    (a & b & c & d & e & B1 & B2 & B3 & Hp & T1 & T2 & T3 & Ha & Hb & Hc & Hd & He & Hval).
  assert (Hh : hex_nibbles [B1; B2; B3] =
               [a; b; c; d; e; if (0 <=? v)%Z then 12 else 13]).
  { change [B1; B2; B3] with ([B1] ++ [B2] ++ [B3]).
    rewrite !hex_nibbles_app.
    rewrite (hex_nibbles_byte B1 a b T1), (hex_nibbles_byte B2 c d T2), (hex_nibbles_byte B3 e _ T3)
      by (try destruct (0 <=? v)%Z; lia).
    reflexivity. }
  exists [B1; B2; B3]. split; [exact Hp|]. split; [reflexivity|].
  rewrite (unpack_comp3_three B1 B2 B3 a b c d e _ Hh Ha Hb Hc Hd He), Hh.
  split; [|reflexivity].
  cbv zeta. rewrite Hval. destruct (0 <=? v)%Z eqn:E; simpl; f_equal.
  - apply Z.leb_le in E. lia.
  - apply Z.leb_gt in E. lia.
Qed.

Lemma pair_values_length ds : (length ds <= 2 * length (pair_values ds) + 1)%nat.
Proof.
  revert ds. fix IH 1. intros [|d1 [|d2 rest]]; cbn [pair_values length]; [lia|lia|].
  specialize (IH rest). lia.
Qed.

Lemma pair_values_bound ds :
  Forall (fun d => d < 10) ds -> Forall (fun x => x <= 255) (pair_values ds).
Proof.
  revert ds. fix IH 1. intros [|d1 [|d2 rest]] H; cbn [pair_values]; try constructor.
  - apply Forall_cons_iff in H as [H1 H]. apply Forall_cons_iff in H as [H2 _]. lia.
  - apply IH. do 2 apply Forall_inv_tail in H. exact H.
Qed.

Lemma fold_append_ok vals acc :
  Forall (fun x => x <= 255) vals ->
  exists bs, fold_left bytearray_append vals (Some acc) = Some (acc ++ bs)
    /\ length bs = length vals.
Proof.
  revert acc. induction vals as [|v vals IH]; intros acc H; cbn [fold_left].
  - exists []. rewrite app_nil_r. auto.
  - apply Forall_cons_iff in H as [Hv H].
    destruct (byte_of_small v Hv) as (b & Eb & _).
    replace (bytearray_append (Some acc) v) with (Some (acc ++ [b]))
      by (unfold bytearray_append; rewrite Eb; reflexivity).
    destruct (IH (acc ++ [b]) H) as (bs & E & L).
    rewrite E. exists (b :: bs). rewrite <- app_assoc. simpl. auto.
Qed.

Lemma last_Forall (P : N -> Prop) l d : Forall P l -> P d -> P (last l d).
Proof.
  induction 1 as [|x l Hx _ IH]; intros Hd; [exact Hd|].
  destruct l as [|y l]; [exact Hx|]. apply IH. exact Hd.
Qed.

Lemma abs_digits v k :
  (Z.abs v < 10 ^ Z.of_nat k)%Z -> Z.to_N (Z.abs v) < 10 ^ N.of_nat k.
Proof. intros H. rewrite <- nat_N_Z, <- (N2Z.inj_pow 10) in H. lia. Qed.

(** Below [10 ^ 4300] [pack_comp3] does not fail; its length follows the
    number of digits. *)
Lemma pack_comp3_length v :
  (Z.abs v < 10 ^ 4300)%Z ->
  exists bs, pack_comp3 v 3 = Some bs
    /\ length bs = (length (pair_values (zfill (py_str_N (Z.to_N (Z.abs v))) 5)) + 1)%nat.
Proof.
  intros Hv. change 4300%Z with (Z.of_nat int_max_str_digits) in Hv.
  unfold pack_comp3. rewrite (Digits.py_str_ok _ int_max_str_digits (le_n _) (abs_digits _ _ Hv)).
  change (3 * 2 - 1)%nat with 5%nat.
  set (digits := zfill (py_str_N (Z.to_N (Z.abs v))) 5).
  assert (Hd : Forall (fun d => d < 10) digits)
    by (apply Digits.zfill_digits, Digits.py_str_digits).
  destruct (fold_append_ok (pair_values digits) [] (pair_values_bound _ Hd)) as (bs & E & L).
  rewrite E. simpl.
  set (s := if (0 <=? v)%Z then 12 else 13).
  assert (Hs : s = 12 \/ s = 13) by (unfold s; destruct (0 <=? v)%Z; auto).
  assert (He : last digits 0 < 10) by (apply last_Forall; [exact Hd|lia]).
  rewrite (lor_sign _ s He Hs).
  destruct (byte_of_small (last digits 0 * 16 + s)) as (b & Eb & _); [destruct Hs; lia|].
  unfold bytearray_append. rewrite Eb. exists (bs ++ [b]).
  split; [reflexivity|]. rewrite length_app, L. reflexivity.
Qed.


End Comp3.

(** ** Text fields and the record layout *)

Module Layout.

Lemma ljust_in_cp037 s w : in_cp037 s -> in_cp037 (ljust s w).
Proof.
  intros H. unfold ljust, in_cp037. apply Forall_app. split; [exact H|].
  apply Forall_forall. intros x Hx. apply repeat_spec in Hx. subst. lia.
Qed.

Lemma ljust_length s w : (length s <= w)%nat -> length (ljust s w) = w.
Proof. intros. unfold ljust. rewrite length_app, repeat_length. lia. Qed.

Lemma ljust_long s w : (w <= length s)%nat -> ljust s w = s.
Proof.
  intros. unfold ljust. replace (w - length s)%nat with 0%nat by lia.
  apply app_nil_r.
Qed.

Lemma field_roundtrip s w :
  in_cp037 s -> (length s <= w)%nat -> no_edge_space s ->
  exists bs, Cp037.encode (ljust s w) = Some bs /\ length bs = w
    /\ decode_text bs = Some s.
Proof.
  intros Hc Hl He.
  destruct (Cp037Facts.encode_ok (ljust s w) (ljust_in_cp037 s w Hc)) as (bs & Hbs & Hlen & Hdec).
  exists bs. split; [exact Hbs|]. split; [rewrite Hlen; apply ljust_length; exact Hl|].
  unfold decode_text. rewrite Hdec. unfold ljust. rewrite strip_ljust_pad by exact He.
  reflexivity.
Qed.

Lemma field_length s w :
  in_cp037 s -> (length s <= w)%nat ->
  exists bs, Cp037.encode (ljust s w) = Some bs /\ length bs = w.
Proof.
  intros Hc Hl.
  destruct (Cp037Facts.encode_ok (ljust s w) (ljust_in_cp037 s w Hc)) as (bs & Hbs & Hlen & _).
  exists bs. split; [exact Hbs|]. rewrite Hlen. apply ljust_length. exact Hl.
Qed.

Lemma slice_mid (pre mid post : list byte) i j :
  i = length pre -> j = (length pre + length mid)%nat ->
  slice i j (pre ++ mid ++ post) = mid.
Proof.
  intros -> ->. unfold slice.
  rewrite skipn_app, skipn_all, Nat.sub_diag. simpl.
  replace (length pre + length mid - length pre)%nat with (length mid) by lia.
  rewrite firstn_app, firstn_all, Nat.sub_diag. simpl. apply app_nil_r.
Qed.

Lemma decode_text_ok raw : exists s, decode_text raw = Some s.
Proof.
  destruct (Cp037Facts.decode_ok raw) as (s & Hs & _).
  unfold decode_text. rewrite Hs. eauto.
Qed.

(** Every chunk of at least 31 bytes decodes: no field decoder fails. *)
Lemma parse_chunk_total chunk :
  (31 <= length chunk)%nat -> exists r, parse_chunk chunk = Some r.
Proof.
  intros Hl. unfold parse_chunk.
  destruct (decode_text_ok (slice 0 10 chunk)) as (a & ->).
  destruct (decode_text_ok (slice 10 30 chunk)) as (b & ->).
  rewrite Comp3.unpack_comp3_short.
  - destruct (decode_text_ok (slice 33 83 chunk)) as (d & ->). eauto.
  - unfold slice. intros H. apply (f_equal (@length byte)) in H.
    rewrite length_firstn, length_skipn in H. destruct (length chunk - 30)%nat eqn:E; [lia|discriminate H].
  - unfold slice. rewrite length_firstn. lia.
Qed.

End Layout.

(** ** Serialization of a record within the layout *)

Module Record83.

Lemma serialize_layout r :
  within_layout r -> in_cp037 (rec_id r) -> in_cp037 (name r) -> in_cp037 (text r) ->
  exists a b c d, serialize r = Some (a ++ b ++ c ++ d)
    /\ length a = 10%nat /\ length b = 20%nat /\ length c = 3%nat /\ length d = 50%nat
    /\ unpack_comp3 c = Some (amount r).
Proof.
  intros (Hi & Hn & Ht & Ha) Ci Cn Ct.
  destruct (Layout.field_length _ 10 Ci Hi) as (a & Ea & La).
  destruct (Layout.field_length _ 20 Cn Hn) as (b & Eb & Lb).
  destruct (Comp3.comp3_roundtrip (amount r) Ha) as (c & Ec & Lc & Uc & _).
  destruct (Layout.field_length _ 50 Ct Ht) as (d & Ed & Ld).
  exists a, b, c, d. unfold serialize, create_ebcdic_record.
  rewrite Ea, Eb, Ec, Ed. auto 10.
Qed.

Lemma parse_serialized a b c d :
  length a = 10%nat -> length b = 20%nat -> length c = 3%nat -> length d = 50%nat ->
  parse_chunk (a ++ b ++ c ++ d) =
    (let? i := decode_text a in
     let? n := decode_text b in
     let? m := unpack_comp3 c in
     let? t := decode_text d in
     Some (mk_record i n m t)).
Proof.
  intros La Lb Lc Ld. unfold parse_chunk.
  assert (S1 : slice 0 10 (a ++ b ++ c ++ d) = a)
    by (apply (Layout.slice_mid [] a (b ++ c ++ d)); simpl; lia).
  assert (S2 : slice 10 30 (a ++ b ++ c ++ d) = b)
    by (apply (Layout.slice_mid a b (c ++ d)); lia).
  assert (S3 : slice 30 33 (a ++ b ++ c ++ d) = c)
    by (rewrite (app_assoc a b); apply Layout.slice_mid; rewrite ?length_app; lia).
  assert (S4 : slice 33 83 (a ++ b ++ c ++ d) = d).
  { rewrite (app_assoc a b), (app_assoc (a ++ b) c).
    replace (((a ++ b) ++ c) ++ d) with (((a ++ b) ++ c) ++ d ++ [])
      by (rewrite app_nil_r; reflexivity).
    apply Layout.slice_mid; rewrite ?length_app; lia. }
  rewrite S1, S2, S3, S4. reflexivity.
Qed.

End Record83.

(** ** The reader loop *)

Module Reader.

Lemma parse_loop_short fuel src :
  (length src < rec_len)%nat -> parse_loop fuel src = ([], []).
Proof.
  intros Hl. destruct fuel as [|f]; [reflexivity|]. cbn [parse_loop].
  destruct (firstn rec_len src) as [|x l] eqn:E; [reflexivity|].
  rewrite <- E, length_firstn.
  replace (Nat.ltb (Nat.min rec_len (length src)) rec_len) with true; [reflexivity|].
  symmetry. apply Nat.ltb_lt. lia.
Qed.

Lemma parse_loop_chunks n :
  forall fuel src,
  (rec_len * n <= length src < rec_len * n + rec_len)%nat -> (n <= fuel)%nat ->
  exists rs, parse_loop fuel src = (rs, [])
    /\ Forall2 (fun chunk r => parse_chunk chunk = Some r) (full_chunks n src) rs.
Proof.
  induction n as [|n IH]; intros fuel src Hl Hf.
  - exists []. split; [apply parse_loop_short; lia|constructor].
  - destruct fuel as [|f]; [lia|].
    destruct (IH f (skipn rec_len src)) as (rs & Hrs & Hall);
      [rewrite length_skipn; unfold rec_len in *; lia|lia|].
    assert (Hc : length (firstn rec_len src) = rec_len)
      by (rewrite length_firstn; unfold rec_len in *; lia).
    destruct (Layout.parse_chunk_total (firstn rec_len src)) as (r & Hr);
      [rewrite Hc; unfold rec_len; lia|].
    exists (r :: rs). cbn [parse_loop full_chunks].
    destruct (firstn rec_len src) as [|x l] eqn:E; [discriminate Hc|].
    rewrite Hc, Nat.ltb_irrefl, Hrs, Hr. split; [reflexivity|].
    constructor; assumption.
Qed.

(** Every full chunk yields its record; nothing is reported. *)
Lemma reader_all_chunks src :
  exists rs, parse_mainframe_file src = (rs, [])
    /\ Forall2 (fun chunk r => parse_chunk chunk = Some r)
               (full_chunks (length src / rec_len) src) rs
    /\ length rs = (length src / rec_len)%nat.
Proof.
  destruct (parse_loop_chunks (length src / rec_len) (length src) src) as (rs & H1 & H2).
  - pose proof (Nat.div_mod (length src) rec_len ltac:(discriminate)).
    pose proof (Nat.mod_upper_bound (length src) rec_len ltac:(discriminate)). lia.
  - apply Nat.Div0.div_le_upper_bound. unfold rec_len. lia.
  - exists rs. split; [exact H1|]. split; [exact H2|].
    apply Forall2_length in H2. rewrite <- H2.
    clear. generalize (length src / rec_len)%nat. intros n. revert src.
    induction n; intros; simpl; auto.
Qed.

Lemma full_chunks_firstn n m src :
  (n <= m)%nat -> full_chunks n (firstn (rec_len * m) src) = full_chunks n src.
Proof.
  revert m src. induction n as [|n IH]; intros m src Hm; [reflexivity|].
  destruct m as [|m]; [lia|]. cbn [full_chunks].
  replace (rec_len * S m)%nat with (rec_len + rec_len * m)%nat by lia.
  rewrite firstn_firstn, Nat.min_l by lia. f_equal.
  rewrite skipn_firstn_comm. replace (rec_len + rec_len * m - rec_len)%nat with (rec_len * m)%nat by lia.
  apply IH. lia.
Qed.

Lemma Forall2_det l rs1 rs2 :
  Forall2 (fun chunk r => parse_chunk chunk = Some r) l rs1 ->
  Forall2 (fun chunk r => parse_chunk chunk = Some r) l rs2 -> rs1 = rs2.
Proof.
  intros H1. revert rs2. induction H1 as [|c r l rs1 Hr _ IH]; intros rs2 H2;
    inversion H2 as [|? r' ? rs2' Hr' H2']; subst; [reflexivity|].
  rewrite Hr in Hr'. injection Hr' as <-. f_equal. apply IH. exact H2'.
Qed.

End Reader.

(** ** The writer *)

Module Writer.

Lemma loop_concat rows buf :
  dataframe_to_dat_loop rows buf = option_map (fun bss => buf ++ concat bss) (serialize_all rows).
Proof.
  revert buf. induction rows as [|r rows IH]; intros buf; simpl.
  - rewrite app_nil_r. reflexivity.
  - unfold serialize. destruct (create_ebcdic_record _ _ _ _) as [b|]; [|reflexivity].
    rewrite IH. destruct (serialize_all rows); simpl; [|reflexivity].
    rewrite app_assoc. reflexivity.
Qed.

Lemma serialize_all_none rows r :
  In r rows -> serialize r = None -> serialize_all rows = None.
Proof.
  induction rows as [|r' rows IH]; simpl; [contradiction|].
  intros [-> | Hin] Hr.
  - rewrite Hr. reflexivity.
  - destruct (serialize r'); [|reflexivity]. rewrite (IH Hin Hr). reflexivity.
Qed.

Lemma serialize_all_Forall2 rows bss :
  serialize_all rows = Some bss <-> Forall2 (fun r b => serialize r = Some b) rows bss.
Proof.
  revert bss. induction rows as [|r rows IH]; intros bss; simpl.
  - split; [intros H; injection H as <-; constructor|intros H; inversion H; reflexivity].
  - split.
    + destruct (serialize r) as [b|] eqn:Eb; [|discriminate].
      destruct (serialize_all rows) as [bs|] eqn:Es; [|discriminate].
      intros H. injection H as <-. constructor; [exact Eb|apply IH; reflexivity].
    + intros H. inversion H as [|? b ? bs Hb Hbs]; subst.
      rewrite Hb. apply IH in Hbs. rewrite Hbs. reflexivity.
Qed.

Lemma serialize_all_83 rows :
  Forall layout_ok rows ->
  exists bss, serialize_all rows = Some bss /\ length (concat bss) = (83 * length rows)%nat.
Proof.
  induction 1 as [|r rows (Hw & Ci & Cn & Ct) _ IH]; [exists []; auto|].
  destruct (Record83.serialize_layout r Hw Ci Cn Ct)
    as (a & b & c & d & E & La & Lb & Lc & Ld & _).
  destruct IH as (bss & Es & Ls).
  exists ((a ++ b ++ c ++ d) :: bss). simpl. rewrite E, Es. split; [reflexivity|].
  rewrite !length_app, Ls. lia.
Qed.

End Writer.

(** ** Records wider than the layout *)

Module Oversize.

Lemma ljust_len s w : length (ljust s w) = Nat.max w (length s).
Proof. unfold ljust. rewrite length_app, repeat_length. lia. Qed.

Lemma field_len s w :
  in_cp037 s -> exists bs, Cp037.encode (ljust s w) = Some bs /\ length bs = Nat.max w (length s).
Proof.
  intros Hc.
  destruct (Cp037Facts.encode_ok (ljust s w) (Layout.ljust_in_cp037 s w Hc)) as (bs & E & L & _).
  exists bs. rewrite L, ljust_len. auto.
Qed.

(** Below [10 ^ 4300] [pack_comp3 v 3] gives at least 3 bytes, and at
    least 4 past five digits. *)
Lemma pack_len v :
  (Z.abs v < 10 ^ 4300)%Z ->
  exists bs, pack_comp3 v 3 = Some bs /\ (3 <= length bs)%nat
    /\ ((100000 <= Z.abs v)%Z -> (4 <= length bs)%nat).
Proof.
  intros Hv. destruct (Comp3.pack_comp3_length v Hv) as (bs & E & L).
  exists bs. split; [exact E|]. rewrite L.
  set (ds := zfill (py_str_N (Z.to_N (Z.abs v))) 5).
  pose proof (Comp3.pair_values_length ds) as Hp.
  assert (H5 : (5 <= length ds)%nat) by (unfold ds; rewrite Digits.zfill_length; lia).
  split; [lia|]. intros Hb.
  assert (H6 : (6 <= length ds)%nat).
  { unfold ds. rewrite Digits.zfill_length.
    assert (5 < length (py_str_N (Z.to_N (Z.abs v))))%nat; [|lia].
    apply Digits.py_str_len_ge. change (10 ^ N.of_nat 5)%N with 100000%N. lia. }
  lia.
Qed.

(** An encodable record serializes to at least 83 bytes, to more when it
    is wider than the layout. *)
Lemma serialize_len r :
  encodable r ->
  exists bs, serialize r = Some bs /\ (83 <= length bs)%nat
    /\ (oversize r -> (83 < length bs)%nat).
Proof.
  intros (Ci & Cn & Ct & Ha).
  destruct (field_len _ 10 Ci) as (a & Ea & La).
  destruct (field_len _ 20 Cn) as (b & Eb & Lb).
  destruct (pack_len _ Ha) as (c & Ec & Lc & Lc4).
  destruct (field_len _ 50 Ct) as (d & Ed & Ld).
  exists (a ++ b ++ c ++ d). unfold serialize, create_ebcdic_record.
  rewrite Ea, Eb, Ec, Ed. rewrite !length_app, La, Lb, Ld.
  split; [reflexivity|]. split; [lia|].
  intros [H|[H|[H|H]]]; [lia|lia|lia|]. specialize (Lc4 ltac:(lia)). lia.
Qed.

Lemma writer_len rows :
  Forall encodable rows ->
  exists bss, serialize_all rows = Some bss /\ (83 * length rows <= length (concat bss))%nat
    /\ ((exists r, In r rows /\ oversize r) -> (83 * length rows < length (concat bss))%nat).
Proof.
  induction 1 as [|r rows Hr _ IH].
  - exists []. split; [reflexivity|]. split; [simpl; lia|]. intros (r & [] & _).
  - destruct (serialize_len r Hr) as (b & Eb & Lb & Ob).
    destruct IH as (bss & Es & Ls & Os).
    exists (b :: bss). simpl. rewrite Eb, Es. split; [reflexivity|].
    rewrite length_app. split; [lia|].
    intros (r' & [<- | Hin] & Hr').
    + specialize (Ob Hr'). lia.
    + assert (83 * length rows < length (concat bss))%nat by (apply Os; eauto). lia.
Qed.

End Oversize.

(** ** What the reader yields *)

Module ReaderFacts.

Lemma lstrip_suffix l : exists p, l = p ++ lstrip l.
Proof.
  induction l as [|c l IH]; simpl; [exists []; reflexivity|].
  destruct (py_isspace c); [|exists []; reflexivity].
  destruct IH as (p & Hp). exists (c :: p). simpl. f_equal. exact Hp.
Qed.

Lemma lstrip_head l :
  match lstrip l with [] => True | c :: _ => py_isspace c = false end.
Proof.
  induction l as [|c l IH]; simpl; [exact I|].
  destruct (py_isspace c) eqn:E; [exact IH|exact E].
Qed.

Lemma strip_no_edge_space s : no_edge_space (py_strip s).
Proof.
  unfold py_strip. set (t := lstrip s). set (u := lstrip (rev t)).
  pose proof (lstrip_head s) as Ht. fold t in Ht.
  pose proof (lstrip_head (rev t)) as Hu. fold u in Hu.
  destruct (lstrip_suffix (rev t)) as (p & Hp). fold u in Hp.
  assert (Et : t = rev u ++ rev p)
    by (rewrite <- (rev_involutive t), Hp, rev_app_distr; reflexivity).
  clearbody u t. destruct u as [|c u']; [exact I|].
  cbn [rev] in *. rewrite <- app_assoc in Et. simpl in Et.
  destruct (rev u') as [|d w] eqn:Ew.
  - rewrite Et in Ht. simpl in Ht. simpl. split; exact Hu.
  - rewrite Et in Ht. simpl in Ht.
    unfold no_edge_space. rewrite last_last. cbn [app]. split; assumption.
Qed.

Lemma Forall_lstrip (P : N -> Prop) l : Forall P l -> Forall P (lstrip l).
Proof.
  destruct (lstrip_suffix l) as (p & Hp). rewrite Hp at 1.
  intros H. apply Forall_app in H. apply H.
Qed.

Lemma Forall_strip (P : N -> Prop) s : Forall P s -> Forall P (py_strip s).
Proof.
  intros H. unfold py_strip.
  apply Forall_rev, Forall_lstrip, Forall_rev, Forall_lstrip, H.
Qed.

Lemma length_lstrip l : (length (lstrip l) <= length l)%nat.
Proof.
  destruct (lstrip_suffix l) as (p & Hp). rewrite Hp at 2. rewrite length_app. lia.
Qed.

Lemma strip_length s : (length (py_strip s) <= length s)%nat.
Proof.
  unfold py_strip. rewrite length_rev.
  pose proof (length_lstrip (rev (lstrip s))) as H. rewrite length_rev in H.
  pose proof (length_lstrip s). lia.
Qed.

Lemma decode_in_cp037 bs s : Cp037.decode bs = Some s -> in_cp037 s /\ length s = length bs.
Proof.
  revert s. induction bs as [|b bs IH]; simpl; intros s H.
  - injection H as <-. split; [constructor|reflexivity].
  - destruct (Cp037Facts.decode_byte_ok b) as (c & Hc & Hlt). rewrite Hc in H.
    destruct (Cp037.decode bs) as [s'|]; [|discriminate].
    injection H as <-. destruct (IH s' eq_refl) as [H1 H2].
    split; [constructor; assumption|simpl; f_equal; exact H2].
Qed.

(** A decoded text field: code page 037, no edge whitespace, no longer
    than its bytes. *)
Lemma decode_text_fits raw s :
  decode_text raw = Some s ->
  in_cp037 s /\ no_edge_space s /\ (length s <= length raw)%nat.
Proof.
  unfold decode_text. destruct (Cp037.decode raw) as [t|] eqn:E; [|discriminate].
  intros H. injection H as <-. destruct (decode_in_cp037 raw t E) as [H1 H2].
  split; [apply Forall_strip, H1|]. split; [apply strip_no_edge_space|].
  rewrite <- H2. apply strip_length.
Qed.

Lemma py_int_dec_bound l :
  Forall (fun d => (d < 10)%N) l -> (py_int_dec l < 10 ^ N.of_nat (length l))%N.
Proof.
  induction l as [|d l IH] using rev_ind; intros H; [reflexivity|].
  apply Forall_app in H as [H1 H2]. apply Forall_cons_iff in H2 as [Hd _].
  rewrite Digits.py_int_dec_snoc, length_app, Nat.add_comm. cbn [Nat.add].
  rewrite Digits.pow10_succ. specialize (IH H1). lia.
Qed.

Lemma Forall_filter_digits l : Forall (fun d => (d < 10)%N) (filter is_digit_nibble l).
Proof.
  apply Forall_forall. intros x Hx. apply filter_In in Hx as [_ Hx].
  apply N.ltb_lt. exact Hx.
Qed.

(** The magnitude [unpack_comp3] can give from [n] bytes. *)
Lemma unpack_bound raw v :
  unpack_comp3 raw = Some v ->
  (Z.abs v < 10 ^ Z.of_nat (2 * length raw - 1))%Z.
Proof.
  intros H. destruct raw as [|b raw']; [discriminate|].
  rewrite Comp3.unpack_comp3_eq in H by discriminate. cbv zeta in H.
  destruct (_ <=? _)%nat in H; [|discriminate H].
  injection H as <-.
  set (ds := filter is_digit_nibble (removelast (hex_nibbles (b :: raw')))).
  assert (Hlen : (length ds <= 2 * length (b :: raw') - 1)%nat).
  { unfold ds. rewrite filter_length_le, Comp3.removelast_length, Comp3.hex_nibbles_length. lia. }
  pose proof (py_int_dec_bound ds (Forall_filter_digits _)) as Hb.
  assert (Hm : (10 ^ N.of_nat (length ds) <= 10 ^ N.of_nat (2 * length (b :: raw') - 1))%N)
    by (apply N.pow_le_mono_r; lia).
  assert (Hv : (Z.abs (Z.of_N (py_int_dec ds)) < 10 ^ Z.of_nat (2 * length (b :: raw') - 1))%Z).
  { rewrite Z.abs_eq by lia. rewrite <- nat_N_Z.
    rewrite <- (N2Z.inj_pow 10). lia. }
  destruct (_ =? 13)%N; [rewrite Z.abs_opp|]; exact Hv.
Qed.

Lemma slice_length i j l : (length (slice i j l) <= j - i)%nat.
Proof. unfold slice. rewrite length_firstn. lia. Qed.

(** A record [parse_chunk] yields from any chunk is clean. *)
Lemma parse_chunk_clean chunk r : parse_chunk chunk = Some r -> clean_record r.
Proof.
  unfold parse_chunk.
  destruct (decode_text (slice 0 10 chunk)) as [i|] eqn:Ei; [|discriminate].
  destruct (decode_text (slice 10 30 chunk)) as [n|] eqn:En; [|discriminate].
  destruct (unpack_comp3 (slice 30 33 chunk)) as [m|] eqn:Em; [|discriminate].
  destruct (decode_text (slice 33 83 chunk)) as [t|] eqn:Et; [|discriminate].
  intros H. injection H as <-.
  apply decode_text_fits in Ei as (Ci & Ni & Li).
  apply decode_text_fits in En as (Cn & Nn & Ln).
  apply decode_text_fits in Et as (Ct & Nt & Lt).
  pose proof (unpack_bound _ _ Em) as Hm.
  pose proof (slice_length 0 10 chunk). pose proof (slice_length 10 30 chunk).
  pose proof (slice_length 30 33 chunk). pose proof (slice_length 33 83 chunk).
  assert (Hp : (10 ^ Z.of_nat (2 * length (slice 30 33 chunk) - 1) <= 10 ^ 5)%Z)
    by (apply Z.pow_le_mono_r; lia).
  unfold clean_record, layout_ok, within_layout; cbn [rec_id name amount text].
  repeat split; try assumption; try lia.
Qed.

Lemma Forall2_in_r {A B} (P : A -> B -> Prop) l1 l2 y :
  Forall2 P l1 l2 -> In y l2 -> exists x, In x l1 /\ P x y.
Proof.
  induction 1 as [|x y' l1 l2 Hxy _ IH]; [contradiction|].
  intros [<- | Hin]; [exists x; split; [left|]; auto|].
  destruct (IH Hin) as (x' & Hx' & Hp). exists x'. split; [right|]; auto.
Qed.

Lemma reader_clean src r : In r (fst (parse_mainframe_file src)) -> clean_record r.
Proof.
  destruct (Reader.reader_all_chunks src) as (rs & Hp & Hall & _).
  rewrite Hp. simpl. intros Hin.
  destruct (Forall2_in_r _ _ _ _ Hall Hin) as (chunk & _ & Hc).
  exact (parse_chunk_clean _ _ Hc).
Qed.

End ReaderFacts.

(** ** Files: concatenation and round trips *)

Module Files.

Lemma record_roundtrip r :
  clean_record r ->
  exists bs, serialize r = Some bs /\ length bs = rec_len /\ parse_chunk bs = Some r.
Proof.
  intros (((Hi & Hn & Ht & Ha) & Ci & Cn & Ct) & Ei & En & Et).
  destruct (Layout.field_roundtrip _ 10 Ci Hi Ei) as (a & Ea & La & Da).
  destruct (Layout.field_roundtrip _ 20 Cn Hn En) as (b & Eb & Lb & Db).
  destruct (Comp3.comp3_roundtrip (amount r) Ha) as (c & Ec & Lc & Uc & _).
  destruct (Layout.field_roundtrip _ 50 Ct Ht Et) as (d & Ed & Ld & Dd).
  exists (a ++ b ++ c ++ d). split; [|split].
  - unfold serialize, create_ebcdic_record. rewrite Ea, Eb, Ec, Ed. reflexivity.
  - rewrite !length_app, La, Lb, Lc, Ld. reflexivity.
  - rewrite Record83.parse_serialized by assumption.
    rewrite Da, Db, Uc, Dd. destruct r; reflexivity.
Qed.

Lemma full_chunks_app m n a b :
  length a = (rec_len * m)%nat ->
  full_chunks (m + n) (a ++ b) = full_chunks m a ++ full_chunks n b.
Proof.
  revert a. induction m as [|m IH]; intros a Ha.
  - destruct a; [reflexivity|discriminate].
  - cbn [full_chunks Nat.add app]. f_equal.
    + rewrite firstn_app. replace (rec_len - length a)%nat with 0%nat by lia.
      rewrite app_nil_r. reflexivity.
    + rewrite skipn_app. replace (rec_len - length a)%nat with 0%nat by lia.
      apply IH. rewrite length_skipn. lia.
Qed.

(** Reading [a ++ b], where [a] holds whole records, reads [a] then [b]. *)
Lemma reader_app a b m :
  length a = (rec_len * m)%nat ->
  parse_mainframe_file (a ++ b) =
    (fst (parse_mainframe_file a) ++ fst (parse_mainframe_file b), []).
Proof.
  intros Ha.
  destruct (Reader.reader_all_chunks (a ++ b)) as (rs & Hp & Hall & _).
  destruct (Reader.reader_all_chunks a) as (ra & Hpa & Halla & _).
  destruct (Reader.reader_all_chunks b) as (rb & Hpb & Hallb & _).
  rewrite Hp, Hpa, Hpb. simpl. f_equal.
  assert (Hn : (length (a ++ b) / rec_len = m + length b / rec_len)%nat).
  { rewrite length_app, Ha, Nat.mul_comm. apply Nat.div_add_l. discriminate. }
  assert (Hm : (length a / rec_len = m)%nat).
  { rewrite Ha, Nat.mul_comm. apply Nat.div_mul. discriminate. }
  rewrite Hn, full_chunks_app in Hall by exact Ha. rewrite Hm in Halla.
  apply Forall2_app_inv_l in Hall as (l1 & l2 & H1 & H2 & ->).
  rewrite (Reader.Forall2_det _ _ _ H1 Halla), (Reader.Forall2_det _ _ _ H2 Hallb).
  reflexivity.
Qed.

Lemma serialize_all_app r1 r2 :
  serialize_all (r1 ++ r2) =
    (let? a := serialize_all r1 in let? b := serialize_all r2 in Some (a ++ b)).
Proof.
  induction r1 as [|r r1 IH]; simpl.
  - destruct (serialize_all r2); reflexivity.
  - destruct (serialize r); [|reflexivity]. rewrite IH.
    destruct (serialize_all r1); [|reflexivity].
    destruct (serialize_all r2); reflexivity.
Qed.

Lemma writer_app r1 r2 :
  dataframe_to_dat (r1 ++ r2) =
    (let? a := dataframe_to_dat r1 in let? b := dataframe_to_dat r2 in Some (a ++ b)).
Proof.
  unfold dataframe_to_dat. rewrite !Writer.loop_concat, serialize_all_app.
  destruct (serialize_all r1); [|reflexivity]. simpl.
  destruct (serialize_all r2); simpl; [|reflexivity].
  rewrite concat_app. reflexivity.
Qed.

Lemma reader_one bs r :
  length bs = rec_len -> parse_chunk bs = Some r -> parse_mainframe_file bs = ([r], []).
Proof.
  intros Hl Hr.
  destruct (Reader.reader_all_chunks bs) as (rs & Hp & Hall & _).
  rewrite Hp. rewrite Hl, Nat.div_same in Hall by discriminate.
  cbn [full_chunks] in Hall. rewrite <- Hl, firstn_all in Hall.
  inversion Hall as [|? r' ? ? Hr' H0]; subst. inversion H0; subst.
  rewrite Hr in Hr'. injection Hr' as <-. reflexivity.
Qed.

(** Clean rows written by [dataframe_to_dat] read back unchanged. *)
Lemma write_read rows :
  Forall clean_record rows ->
  exists bs, dataframe_to_dat rows = Some bs /\ length bs = (rec_len * length rows)%nat
    /\ parse_mainframe_file bs = (rows, []).
Proof.
  induction 1 as [|r rows Hr _ IH].
  - exists []. split; [reflexivity|]. split; reflexivity.
  - destruct (record_roundtrip r Hr) as (b & Eb & Lb & Pb).
    destruct IH as (bs & Ebs & Lbs & Pbs).
    exists (b ++ bs).
    change (r :: rows) with ([r] ++ rows). rewrite writer_app.
    unfold dataframe_to_dat at 1. cbn [dataframe_to_dat_loop].
    unfold serialize in Eb. rewrite Eb. cbn [dataframe_to_dat_loop app].
    rewrite Ebs. split; [reflexivity|]. split.
    + rewrite length_app, Lb, Lbs. simpl. lia.
    + rewrite (reader_app b bs 1) by (rewrite Lb; reflexivity).
      rewrite (reader_one b r Lb Pb), Pbs. reflexivity.
Qed.

End Files.

(** ** [pack_comp3] at any width *)

Module PackWidth.

Local Open Scope N_scope.

Lemma pair_values_snoc k p e :
  length p = (2 * k)%nat -> pair_values (p ++ [e]) = pair_values p.
Proof.
  revert p. induction k as [|k IH]; intros p Hp.
  - destruct p; [reflexivity|discriminate].
  - destruct p as [|d1 [|d2 rest]]; try (simpl in Hp; lia).
    cbn [app pair_values]. f_equal. apply IH. simpl in Hp. lia.
Qed.

Lemma pair_values_even_length k p :
  length p = (2 * k)%nat -> length (pair_values p) = k.
Proof.
  revert p. induction k as [|k IH]; intros p Hp.
  - destruct p; [reflexivity|discriminate].
  - destruct p as [|d1 [|d2 rest]]; try (simpl in Hp; lia).
    cbn [pair_values length]. f_equal. apply IH. simpl in Hp. lia.
Qed.

Lemma unpair k p :
  length p = (2 * k)%nat -> Forall (fun d => d < 10) p ->
  flat_map (fun x => [x / 16; x mod 16]) (pair_values p) = p.
Proof.
  revert p. induction k as [|k IH]; intros p Hp Hd.
  - destruct p; [reflexivity|discriminate].
  - destruct p as [|d1 [|d2 rest]]; try (simpl in Hp; lia).
    apply Forall_cons_iff in Hd as [H1 Hd]. apply Forall_cons_iff in Hd as [H2 Hd].
    cbn [pair_values flat_map app].
    destruct (Comp3.nibbles_of d1 d2 ltac:(lia)) as [Hq Hr].
    rewrite N.shiftr_div_pow2 in Hq. change 15 with (N.ones 4) in Hr.
    rewrite N.land_ones in Hr. change (2 ^ 4) with 16 in Hq, Hr.
    rewrite Hq, Hr, IH by (simpl in Hp; lia || exact Hd). reflexivity.
Qed.

Lemma fold_append_bytes vals acc :
  Forall (fun x => x <= 255) vals ->
  exists bs, fold_left bytearray_append vals (Some acc) = Some (acc ++ bs)
    /\ map Byte.to_N bs = vals.
Proof.
  revert acc. induction vals as [|v vals IH]; intros acc H; cbn [fold_left].
  - exists []. rewrite app_nil_r. auto.
  - apply Forall_cons_iff in H as [Hv H].
    destruct (Comp3.byte_of_small v Hv) as (b & Eb & Tb).
    replace (bytearray_append (Some acc) v) with (Some (acc ++ [b]))
      by (unfold bytearray_append; rewrite Eb; reflexivity).
    destruct (IH (acc ++ [b]) H) as (bs & E & M).
    rewrite E. exists (b :: bs). rewrite <- app_assoc. simpl. rewrite Tb, M. auto.
Qed.

Lemma hex_nibbles_map bs :
  hex_nibbles bs = flat_map (fun x => [x / 16; x mod 16]) (map Byte.to_N bs).
Proof.
  induction bs as [|b bs IH]; [reflexivity|].
  change (b :: bs) with ([b] ++ bs). rewrite Comp3.hex_nibbles_app, IH, Comp3.hex_nibbles_div.
  reflexivity.
Qed.

(** [pack_comp3 v w] for [w <= 2150] and [|v| < 10 ^ (2w - 1)]: [w]
    bytes that [unpack_comp3] reads back as [v]. *)
Lemma pack_roundtrip v w :
  (1 <= w <= 2150)%nat -> (Z.abs v < 10 ^ Z.of_nat (2 * w - 1))%Z ->
  exists bs, pack_comp3 v w = Some bs /\ length bs = w /\ unpack_comp3 bs = Some v.
Proof.
  intros Hw Hv. unfold pack_comp3.
  set (n := Z.to_N (Z.abs v)).
  assert (Hn : n < 10 ^ N.of_nat (2 * w - 1)) by (apply Comp3.abs_digits, Hv).
  rewrite (Digits.py_str_ok n (2 * w - 1)) by (unfold int_max_str_digits; lia || exact Hn).
  replace (w * 2 - 1)%nat with (2 * w - 1)%nat by lia.
  set (digits := zfill (py_str_N n) (2 * w - 1)).
  assert (Hle : (length (py_str_N n) <= 2 * w - 1)%nat)
    by (apply Digits.py_str_len_le; [lia|exact Hn]).
  assert (Hdl : length digits = (2 * w - 1)%nat) by (unfold digits; rewrite Digits.zfill_length; lia).
  assert (Hd : Forall (fun d => d < 10) digits)
    by (apply Digits.zfill_digits, Digits.py_str_digits).
  assert (Hval : py_int_dec digits = n)
    by (unfold digits, zfill; rewrite Digits.py_int_dec_zeros; apply Digits.py_str_value).
  assert (Hne : digits <> []) by (intros E; rewrite E in Hdl; simpl in Hdl; lia).
  pose proof (app_removelast_last 0 Hne) as Hsplit.
  clearbody digits.
  set (p := removelast digits) in *. set (e := last digits 0) in *.
  assert (Hpl : length p = (2 * (w - 1))%nat).
  { rewrite Hsplit, length_app in Hdl. simpl in Hdl. lia. }
  rewrite Hsplit in Hd. apply Forall_app in Hd as [Hpd He].
  apply Forall_cons_iff in He as [He _].
  rewrite Hsplit, (pair_values_snoc (w - 1) p e Hpl).
  destruct (fold_append_bytes (pair_values p) [] (Comp3.pair_values_bound p Hpd))
    as (bs0 & Ebs0 & Mbs0).
  rewrite Ebs0. cbn [app].
  set (s := if (0 <=? v)%Z then 12 else 13).
  assert (Hs : s = 12 \/ s = 13) by (unfold s; destruct (0 <=? v)%Z; auto).
  rewrite (Comp3.lor_sign e s He Hs).
  destruct (Comp3.byte_of_small (e * 16 + s)) as (b & Eb & Tb); [destruct Hs; lia|].
  unfold bytearray_append. rewrite Eb. exists (bs0 ++ [b]). split; [reflexivity|].
  split.
  - rewrite length_app, <- (length_map Byte.to_N bs0), Mbs0.
    rewrite (pair_values_even_length (w - 1) p Hpl). simpl. lia.
  - assert (Hh : hex_nibbles (bs0 ++ [b]) = p ++ [e; s]).
    { rewrite Comp3.hex_nibbles_app, (Comp3.hex_nibbles_byte b e s Tb) by (destruct Hs; lia).
      rewrite hex_nibbles_map, Mbs0, (unpair (w - 1) p Hpl Hpd). reflexivity. }
    assert (Hbl : length (bs0 ++ [b]) = w).
    { rewrite length_app, <- (length_map Byte.to_N bs0), Mbs0.
      rewrite (pair_values_even_length (w - 1) p Hpl). simpl. lia. }
    rewrite Comp3.unpack_comp3_short by (destruct bs0; discriminate || lia).
    rewrite Hh, removelast_app by discriminate.
    replace (p ++ [e; s]) with ((p ++ [e]) ++ [s]) by (rewrite <- app_assoc; reflexivity).
    rewrite last_last. cbn [removelast].
    rewrite Comp3.filter_all_digits
      by (apply Forall_app; split; [exact Hpd|constructor; [exact He|constructor]]).
    rewrite <- Hsplit, Hval. cbv zeta. unfold n, s.
    destruct (0 <=? v)%Z eqn:E; simpl; f_equal.
    + apply Z.leb_le in E. lia.
    + apply Z.leb_gt in E. lia.
Qed.

End PackWidth.

(** ** The analysis step of app.py *)

Module AnalysisFacts.

(** Each tier label holds exactly one of the three filter words. *)
Lemma tier_words :
  py_contains green_tier GREEN = true /\ py_contains green_tier YELLOW = false
  /\ py_contains green_tier RED = false
  /\ py_contains yellow_tier GREEN = false /\ py_contains yellow_tier YELLOW = true
  /\ py_contains yellow_tier RED = false
  /\ py_contains red_tier GREEN = false /\ py_contains red_tier YELLOW = false
  /\ py_contains red_tier RED = true.
Proof. repeat split; vm_compute; reflexivity. Qed.

Lemma classify_ok imp pii txt r :
  tier_ok (mk_trow r (fst (classify imp pii txt)) (snd (classify imp pii txt))).
Proof.
  unfold tier_ok, classify. cbn [tier pii_count].
  destruct (imp txt); [left; auto|right].
  destruct (Nat.ltb 0 (pii txt)) eqn:E; cbn [fst snd].
  - left. split; [reflexivity|]. apply Nat.ltb_lt, E.
  - right. split; [reflexivity|]. apply Nat.ltb_ge in E. lia.
Qed.

Lemma run_analysis_pre imp pii df : run_analysis imp pii df = rename_loop 0 (pre_rows imp pii df).
Proof.
  unfold run_analysis, pre_rows. f_equal.
  induction df as [|r df IH]; [reflexivity|].
  cbn [map combine]. rewrite IH. destruct (classify imp pii (text r)); reflexivity.
Qed.

Lemma rename_keeps (Q : list N -> nat -> Prop) idx d :
  Forall (fun t => Q (tier t) (pii_count t)) d ->
  Forall (fun t => Q (tier t) (pii_count t)) (rename_loop idx d).
Proof.
  revert idx. induction d as [|t d IH]; intros idx H; [constructor|].
  apply Forall_cons_iff in H as [Ht H]. cbn [rename_loop].
  constructor; [|apply IH, H]. destruct (negb _); exact Ht.
Qed.

Lemma analysis_ok imp pii df : Forall tier_ok (run_analysis imp pii df).
Proof.
  rewrite run_analysis_pre.
  apply (rename_keeps (fun tr p => tier_ok (mk_trow (mk_record [] [] 0 []) tr p))).
  unfold pre_rows. apply Forall_map, Forall_forall. intros r _. apply classify_ok.
Qed.

Lemma rename_length idx d : length (rename_loop idx d) = length d.
Proof. revert idx. induction d; intros; simpl; auto. Qed.

Lemma run_analysis_length imp pii df : length (run_analysis imp pii df) = length df.
Proof. rewrite run_analysis_pre, rename_length. apply length_map. Qed.

Lemma tier_ok_flags t :
  tier_ok t ->
  (py_contains (tier t) GREEN = true /\ py_contains (tier t) YELLOW = false
     /\ py_contains (tier t) RED = false /\ pii_count t = 0%nat)
  \/ (py_contains (tier t) GREEN = false /\ py_contains (tier t) YELLOW = true
     /\ py_contains (tier t) RED = false /\ (0 < pii_count t)%nat)
  \/ (py_contains (tier t) GREEN = false /\ py_contains (tier t) YELLOW = false
     /\ py_contains (tier t) RED = true /\ pii_count t = 0%nat).
Proof.
  destruct tier_words as (G1 & G2 & G3 & Y1 & Y2 & Y3 & R1 & R2 & R3).
  intros [[-> H] | [[-> H] | [-> H]]]; [left|right; left|right; right];
    repeat split; assumption.
Qed.

Lemma partition l :
  Forall tier_ok l ->
  (length (green_df l) + length (yellow_df l) + length (red_df l) = length l)%nat.
Proof.
  unfold green_df, yellow_df, red_df, tier_df. fold GREEN YELLOW RED.
  induction 1 as [|t l Ht _ IH]; [reflexivity|].
  cbn [filter length].
  destruct (tier_ok_flags t Ht) as [(-> & -> & -> & _) | [(-> & -> & -> & _) | (-> & -> & -> & _)]];
    cbn [length]; lia.
Qed.

Lemma rename_green idx d :
  map row (filter (fun t => py_contains (tier t) GREEN) (rename_loop idx d))
  = map row (filter (fun t => py_contains (tier t) GREEN) d).
Proof.
  revert idx. induction d as [|t d IH]; intros idx; [reflexivity|].
  cbn [rename_loop filter]. fold GREEN.
  destruct (py_contains (tier t) GREEN) eqn:E; cbn [negb tier filter].
  - rewrite E. cbn [map]. f_equal. apply IH.
  - rewrite E. apply IH.
Qed.

Lemma green_rows imp pii df :
  map row (green_df (run_analysis imp pii df)) = filter (fun r => imp (text r)) df.
Proof.
  unfold green_df, tier_df. fold GREEN.
  rewrite run_analysis_pre, rename_green. unfold pre_rows.
  destruct tier_words as (G1 & G2 & G3 & Y1 & Y2 & Y3 & R1 & R2 & R3).
  induction df as [|r df IH]; [reflexivity|].
  cbn [map filter]. unfold classify at 1 3. cbn [tier].
  destruct (imp (text r)).
  - cbn [fst]. rewrite G1. cbn [map row]. f_equal. exact IH.
  - destruct (Nat.ltb 0 (pii (text r))); cbn [fst]; [rewrite Y1|rewrite R1]; exact IH.
Qed.

Lemma rename_nth idx d i :
  nth_error (rename_loop idx d) i =
    option_map (fun t =>
      if negb (py_contains (tier t) GREEN) then
        mk_trow (mk_record (rec_id (row t)) (system_id (idx + i)) (amount (row t)) (text (row t)))
                (tier t) (pii_count t)
      else t) (nth_error d i).
Proof.
  revert idx i. induction d as [|t d IH]; intros idx i; [destruct i; reflexivity|].
  destruct i as [|i]; cbn [rename_loop nth_error].
  - rewrite Nat.add_0_r. reflexivity.
  - rewrite IH. f_equal. rewrite Nat.add_succ_r. reflexivity.
Qed.

Lemma digit_chars_inj a b : digit_chars a = digit_chars b -> a = b.
Proof.
  unfold digit_chars. revert b. induction a as [|x a IH]; intros [|y b] H;
    try discriminate; [reflexivity|].
  injection H as Hxy Hab. f_equal; [lia|apply IH, Hab].
Qed.

Lemma system_id_inj i j : system_id i = system_id j -> i = j.
Proof.
  unfold system_id, format_0d. intros H. apply app_inv_head in H.
  apply digit_chars_inj in H. apply (f_equal py_int_dec) in H.
  unfold zfill in H. rewrite !Digits.py_int_dec_zeros, !Digits.py_str_value in H. lia.
Qed.

Lemma fold_add l a : fold_left Nat.add l a = (a + list_sum l)%nat.
Proof.
  revert a. induction l as [|x l IH]; intros a; simpl; [lia|]. rewrite IH. lia.
Qed.

Lemma sum_zero l : Forall (fun t => pii_count t = 0%nat) l -> fold_left Nat.add (map pii_count l) 0%nat = 0%nat.
Proof.
  intros H. rewrite fold_add. induction H as [|t l Ht _ IH]; [reflexivity|].
  simpl. simpl in IH. lia.
Qed.

Lemma sum_pos l : Forall (fun t => (0 < pii_count t)%nat) l ->
  (length l <= fold_left Nat.add (map pii_count l) 0)%nat.
Proof.
  intros H. rewrite fold_add. induction H as [|t l Ht _ IH]; simpl; lia.
Qed.

Lemma Forall_tier_filter w (P : trow -> Prop) l :
  Forall tier_ok l ->
  (forall t, tier_ok t -> py_contains (tier t) w = true -> P t) ->
  Forall P (tier_df w l).
Proof.
  intros H HP. apply Forall_forall. intros t Ht. unfold tier_df in Ht.
  apply filter_In in Ht as [Hin Hc]. apply HP; [|exact Hc].
  rewrite Forall_forall in H. apply H, Hin.
Qed.

Lemma summary_no_pii l :
  Forall (fun t => pii_count t = 0%nat) l ->
  build_summary l =
    if Nat.eqb (length l) 0 then ascii_str "No records in this category."
    else str_of_N (N.of_nat (length l)) ++ ascii_str " records.".
Proof.
  intros H. unfold build_summary. destruct (Nat.eqb (length l) 0); [reflexivity|].
  rewrite (sum_zero l H). reflexivity.
Qed.

End AnalysisFacts.

(** ** Record generation of generator.py *)

Module GenFacts.

Local Open Scope N_scope.

Lemma no_space_edge s : Forall (fun c => py_isspace c = false) s -> no_edge_space s.
Proof.
  intros H. destruct s as [|c s']; [exact I|].
  split; [apply (Forall_inv H)|]. apply Comp3.last_Forall; [exact H|reflexivity].
Qed.

(** A character of code page 037 that is not whitespace. *)
Lemma plain_b s :
  forallb (fun c => (c <? 256) && negb (py_isspace c)) s = true ->
  Forall (fun c => c < 256 /\ py_isspace c = false) s.
Proof.
  intros H. apply Forall_forall. intros c Hc. rewrite forallb_forall in H.
  specialize (H c Hc). apply andb_prop in H as [H1 H2].
  split; [apply N.ltb_lt, H1|apply negb_true_iff, H2].
Qed.

Lemma plain_split s :
  Forall (fun c => c < 256 /\ py_isspace c = false) s ->
  in_cp037 s /\ no_edge_space s.
Proof.
  intros H. split.
  - eapply Forall_impl; [|exact H]. intros c [Hc _]. exact Hc.
  - apply no_space_edge. eapply Forall_impl; [|exact H]. intros c [_ Hc]. exact Hc.
Qed.

Lemma digit_plain ds :
  Forall (fun d => d < 10) ds -> Forall (fun c => c < 256 /\ py_isspace c = false) (digit_chars ds).
Proof.
  intros H. unfold digit_chars. apply Forall_map. eapply Forall_impl; [|exact H].
  intros d Hd. cbv beta in *.
  assert (d = 0 \/ d = 1 \/ d = 2 \/ d = 3 \/ d = 4 \/ d = 5 \/ d = 6 \/ d = 7
          \/ d = 8 \/ d = 9) as Hcase by lia.
  repeat destruct Hcase as [-> | Hcase]; subst; (split; [lia|reflexivity]).
Qed.

Lemma str_of_N_fits n k :
  (1 <= k)%nat -> n < 10 ^ N.of_nat k ->
  (length (str_of_N n) <= k)%nat /\ in_cp037 (str_of_N n) /\ no_edge_space (str_of_N n).
Proof.
  intros Hk Hn. unfold str_of_N. split.
  - unfold digit_chars. rewrite length_map. apply Digits.py_str_len_le; assumption.
  - apply plain_split, digit_plain, Digits.py_str_digits.
Qed.

Lemma prefixes_ok :
  forallb (fun p => (length p <=? 5)%nat && negb (Nat.eqb (length p) 0)
             && forallb (fun c => (c <? 256) && negb (py_isspace c)) p) prefixes = true.
Proof. vm_compute. reflexivity. Qed.

Lemma zones_ok :
  forallb (fun z => (length z <=? 6)%nat
             && forallb (fun c => (c <? 256) && negb (py_isspace c)) z) zones = true.
Proof. vm_compute. reflexivity. Qed.

Lemma system_name_plain p z n :
  In p prefixes -> In z zones -> n < 100 ->
  (length (_system_name p z n) <= 15)%nat
  /\ Forall (fun c => c < 256 /\ py_isspace c = false) (_system_name p z n).
Proof.
  intros Hp Hz Hn.
  pose proof prefixes_ok as P. rewrite forallb_forall in P. specialize (P p Hp).
  pose proof zones_ok as Z. rewrite forallb_forall in Z. specialize (Z z Hz).
  apply andb_prop in P as [P P3]. apply andb_prop in P as [P1 _].
  apply andb_prop in Z as [Z1 Z3]. apply Nat.leb_le in P1, Z1.
  assert (Hl : (length (py_str_N n) <= 2)%nat) by (apply Digits.py_str_len_le; [lia|exact Hn]).
  unfold _system_name, format_0d, digit_chars. split.
  - rewrite !length_app, length_map, Digits.zfill_length. cbn [length]. lia.
  - apply Forall_app. split; [apply plain_b, P3|].
    apply Forall_app. split; [repeat constructor; reflexivity|].
    apply Forall_app. split; [apply plain_b, Z3|].
    apply Forall_app. split; [repeat constructor; reflexivity|].
    apply digit_plain, Digits.zfill_digits, Digits.py_str_digits.
Qed.

Lemma kw_fallback_ok :
  forallb (fun k => (length (k ++ ascii_str ": system event") <=? 50)%nat
             && forallb (fun c => (32 <=? c) && (c <? 127)) (k ++ ascii_str ": system event"))
          _KW_LIST = true.
Proof. vm_compute. reflexivity. Qed.

Lemma kw_source_ok :
  forallb (fun k => match _KW_SOURCE k with Some _ => true | None => false end) _KW_LIST = true.
Proof. vm_compute. reflexivity. Qed.

Lemma generate_log_ok keyword g :
  In keyword _KW_LIST ->
  (length (generate_log keyword g) <= 50)%nat
  /\ Forall (fun c => 32 <= c < 127) (generate_log keyword g).
Proof.
  intros Hk. unfold generate_log.
  set (t := filter _ (py_strip (first_line (py_strip g)))).
  assert (Ht : Forall (fun c => 32 <= c < 127) t).
  { apply Forall_forall. intros c Hc. apply filter_In in Hc as [_ Hc].
    apply andb_prop in Hc as [H1 H2]. apply N.leb_le in H1. apply N.ltb_lt in H2. lia. }
  clearbody t. destruct t as [|c t'].
  - pose proof kw_fallback_ok as F. rewrite forallb_forall in F. specialize (F keyword Hk).
    apply andb_prop in F as [F1 F2]. apply Nat.leb_le in F1. split; [exact F1|].
    apply Forall_forall. intros x Hx. rewrite forallb_forall in F2. specialize (F2 x Hx).
    apply andb_prop in F2 as [G1 G2]. apply N.leb_le in G1. apply N.ltb_lt in G2. lia.
  - split; [rewrite length_firstn; lia|].
    rewrite <- (firstn_skipn 50 (c :: t')) in Ht. apply Forall_app in Ht. apply Ht.
Qed.

Lemma lstrip_app s r :
  lstrip (s ++ r) = match lstrip s with [] => lstrip r | l => l ++ r end.
Proof.
  induction s as [|c s IH]; [reflexivity|].
  cbn [app lstrip]. destruct (py_isspace c); [exact IH|reflexivity].
Qed.

Lemma strip_pad s k : py_strip (s ++ repeat 32 k) = py_strip s.
Proof.
  unfold py_strip. rewrite lstrip_app.
  destruct (lstrip s) as [|c l].
  - rewrite <- (app_nil_r (repeat 32 k)), lstrip_spaces. reflexivity.
  - rewrite rev_app_distr, rev_repeat, lstrip_spaces. reflexivity.
Qed.

(** A text field of code page 037 within its width comes back stripped. *)
Lemma field_strip s w :
  in_cp037 s -> (length s <= w)%nat ->
  exists bs, encode_text s w = Some bs /\ length bs = w /\ decode_text bs = Some (py_strip s).
Proof.
  intros Hc Hl.
  destruct (Cp037Facts.encode_ok (ljust s w) (Layout.ljust_in_cp037 s w Hc)) as (bs & Hbs & Hlen & Hdec).
  exists bs. split; [exact Hbs|]. split; [rewrite Hlen; apply Layout.ljust_length; exact Hl|].
  unfold decode_text. rewrite Hdec. unfold ljust. rewrite strip_pad. reflexivity.
Qed.

(** One generated record: it is written as 83 bytes that read back as its
    id, name and amount and its log text stripped. *)
Lemma generated_record i d :
  draw_ok d -> N.of_nat i < 10 ^ 10 ->
  exists nm log bs,
    generate_record i d = Some (str_of_N (N.of_nat i), nm, draw_amount d, log)
    /\ create_ebcdic_record (str_of_N (N.of_nat i)) nm (draw_amount d) log = Some bs
    /\ length bs = rec_len
    /\ parse_chunk bs = Some (mk_record (str_of_N (N.of_nat i)) nm (draw_amount d) (py_strip log)).
Proof.
  intros (Hk & Hp & Hz & Hn & Ha & Pc & Pl & Pe) Hi.
  pose proof kw_source_ok as S. rewrite forallb_forall in S. specialize (S _ Hk).
  destruct (_KW_SOURCE (keyword d)) as [src|] eqn:Es; [|discriminate S].
  set (nm := if list_eq_dec N.eq_dec src (ascii_str "system")
             then _system_name (sys_prefix d) (sys_zone d) (sys_n d) else person_name d).
  assert (Hnm : in_cp037 nm /\ (length nm <= 20)%nat /\ no_edge_space nm).
  { unfold nm. destruct (list_eq_dec _ _ _); [|auto].
    destruct (system_name_plain (sys_prefix d) (sys_zone d) (sys_n d) Hp Hz ltac:(lia)) as [L F].
    destruct (plain_split _ F). split; [assumption|]. split; [lia|assumption]. }
  destruct Hnm as (Cn & Ln & En).
  set (log := generate_log (keyword d) (generated_text d)).
  destruct (generate_log_ok (keyword d) (generated_text d) Hk) as [Ll Fl]. fold log in Ll, Fl.
  assert (Cl : in_cp037 log) by (eapply Forall_impl; [|exact Fl]; intros c Hc; simpl in Hc; lia).
  destruct (str_of_N_fits (N.of_nat i) 10 ltac:(lia) Hi) as (Li & Ci & Ei).
  destruct (Layout.field_roundtrip _ 10 Ci Li Ei) as (a & Ea & La & Da).
  destruct (Layout.field_roundtrip _ 20 Cn Ln En) as (b & Eb & Lb & Db).
  destruct (Comp3.comp3_roundtrip (draw_amount d) ltac:(lia)) as (c & Ec & Lc & Uc & _).
  destruct (field_strip log 50 Cl Ll) as (e & Ee & Le & De).
  exists nm, log, (a ++ b ++ c ++ e). split; [|split; [|split]].
  - unfold generate_record. rewrite Es. reflexivity.
  - unfold create_ebcdic_record. unfold encode_text in Ee. rewrite Ea, Eb, Ec, Ee. reflexivity.
  - rewrite !length_app, La, Lb, Lc, Le. reflexivity.
  - rewrite Record83.parse_serialized by assumption. rewrite Da, Db, Uc, De. reflexivity.
Qed.

Lemma generate_loop draws i :
  Forall draw_ok draws -> N.of_nat (i + length draws) <= 10 ^ 10 ->
  exists bs rs, generate_main_loop i draws = (bs, true)
    /\ length bs = (rec_len * length draws)%nat
    /\ parse_mainframe_file bs = (rs, [])
    /\ Forall2 (fun jd r => exists log,
         generate_record (fst jd) (snd jd) = Some (rec_id r, name r, amount r, log)
         /\ text r = py_strip log)
       (combine (seq i (length draws)) draws) rs.
Proof.
  revert i. induction draws as [|d draws IH]; intros i Hall Hi.
  - exists [], []. split; [reflexivity|]. split; [reflexivity|]. split; [reflexivity|constructor].
  - apply Forall_cons_iff in Hall as [Hd Hall]. cbn [length] in Hi.
    destruct (generated_record i d Hd ltac:(lia)) as (nm & log & b & Eg & Ec & Lb & Pb).
    destruct (IH (S i) Hall ltac:(lia)) as (bs & rs & El & Ls & Ps & F).
    exists (b ++ bs), (mk_record (str_of_N (N.of_nat i)) nm (draw_amount d) (py_strip log) :: rs).
    cbn [generate_main_loop]. rewrite Eg, Ec, El. split; [reflexivity|]. split.
    + rewrite length_app, Lb, Ls. cbn [length]. lia.
    + split.
      * rewrite (Files.reader_app b bs 1) by (rewrite Lb; reflexivity).
        rewrite (Files.reader_one b _ Lb Pb), Ps. reflexivity.
      * cbn [seq combine]. constructor; [|exact F].
        exists log. cbn [fst snd rec_id name amount text]. split; [exact Eg|reflexivity].
Qed.

End GenFacts.

(** * The properties of the specification *)

Lemma in_cp037_b s : forallb (fun c => (c <? 256)%N) s = true -> in_cp037 s.
Proof.
  intros H. apply Forall_forall. intros c Hc. rewrite forallb_forall in H.
  apply N.ltb_lt, H, Hc.
Qed.

Ltac layout_facts :=
  repeat split; try (apply in_cp037_b; reflexivity); try (simpl; lia); try reflexivity.

(** ** C1: record round trip *)

(** C1 (amended). A record within the widths (id at most 10, name at most
    20, text at most 50 characters) and magnitude ([|amount| <= 99999]),
    whose text fields have no leading or trailing whitespace and hold only
    characters of code page 037, serializes, and [parse_chunk] (the
    per-chunk decoding of [parse_mainframe_file]) gives the record back. *)
Theorem serialize_roundtrip (r : record) :
  within_layout r ->
  in_cp037 (rec_id r) -> in_cp037 (name r) -> in_cp037 (text r) ->
  no_edge_space (rec_id r) -> no_edge_space (name r) -> no_edge_space (text r) ->
  exists bs, serialize r = Some bs /\ parse_chunk bs = Some r.
Proof.
  intros (Hi & Hn & Ht & Ha) Ci Cn Ct Ei En Et.
  destruct (Layout.field_roundtrip _ 10 Ci Hi Ei) as (a & Ea & La & Da).
  destruct (Layout.field_roundtrip _ 20 Cn Hn En) as (b & Eb & Lb & Db).
  destruct (Comp3.comp3_roundtrip (amount r) Ha) as (c & Ec & Lc & Uc & _).
  destruct (Layout.field_roundtrip _ 50 Ct Ht Et) as (d & Ed & Ld & Dd).
  exists (a ++ b ++ c ++ d). split.
  - unfold serialize, create_ebcdic_record. rewrite Ea, Eb, Ec, Ed. reflexivity.
  - rewrite Record83.parse_serialized by assumption.
    rewrite Da, Db, Uc, Dd. destruct r; reflexivity.
Qed.

Lemma serialize_roundtrip_witness :
  let r := mk_record (ascii_str "1") (ascii_str "Alice") 100 (ascii_str "CONFIRM: ok") in
  within_layout r /\ in_cp037 (rec_id r) /\ in_cp037 (name r) /\ in_cp037 (text r)
  /\ no_edge_space (rec_id r) /\ no_edge_space (name r) /\ no_edge_space (text r)
  /\ exists bs, serialize r = Some bs /\ parse_chunk bs = Some r.
Proof.
  intros r. subst r.
  match goal with |- ?A /\ ?B /\ ?C /\ ?D /\ ?E /\ ?F /\ ?G /\ _ =>
    assert (H : A /\ B /\ C /\ D /\ E /\ F /\ G) by layout_facts end.
  destruct H as (H1 & H2 & H3 & H4 & H5 & H6 & H7).
  repeat (split; [assumption|]).
  exact (serialize_roundtrip _ H1 H2 H3 H4 H5 H6 H7).
Defined.

(** C1 counterexample. A record within the widths and magnitude, with no
    edge whitespace, whose id is the euro sign (not in code page 037):
    [create_ebcdic_record] raises, so there is nothing to decode. *)
Lemma serialize_roundtrip_counterexample :
  let r := mk_record [8364%N] (ascii_str "Alice") 100 (ascii_str "CONFIRM: ok") in
  within_layout r /\ no_edge_space (rec_id r) /\ no_edge_space (name r)
  /\ no_edge_space (text r) /\ serialize r = None.
Proof. intros r. subst r. split; [layout_facts|]. repeat split; try reflexivity; simpl; lia. Qed.

(** ** C2: bad records in the reader *)

(** C2 (amended). The reader never skips a full chunk and never prints a
    diagnostic: every 83-byte chunk decodes (code page 037 maps every byte
    and [unpack_comp3] drops non-digit nibbles instead of failing), so the
    records are exactly the decodings of the full chunks, in file order. *)
Theorem reader_never_skips (src : list byte) :
  exists rs, parse_mainframe_file src = (rs, [])
    /\ Forall2 (fun chunk r => parse_chunk chunk = Some r)
               (full_chunks (length src / rec_len) src) rs
    /\ length rs = (length src / rec_len)%nat.
Proof. apply Reader.reader_all_chunks. Qed.

(** C2 counterexample. Five valid records with a non-digit nibble
    injected into the amount of record 2 ([09 99 9C] becomes [09 9A 9C]):
    the reader yields all five records, record 2 with amount 999 instead
    of 9999, and prints no diagnostic. *)
Lemma reader_skip_counterexample :
  slice (rec_len * 2 + 30) (rec_len * 2 + 33) sample_source = [x09; x99; x9c]
  /\ slice (rec_len * 2 + 30) (rec_len * 2 + 33) corrupted_source = [x09; x9a; x9c]
  /\ length (fst (parse_mainframe_file corrupted_source)) = 5%nat
  /\ map amount (fst (parse_mainframe_file corrupted_source)) = [100; -50; 999; 0; -99999]%Z
  /\ snd (parse_mainframe_file corrupted_source) = [].
Proof. repeat split; vm_compute; reflexivity. Qed.

(** ** C3: record width *)

(** C3 (amended). A record that fits the layout (id at most 10, name at
    most 20, text at most 50 characters, [|amount| <= 99999], characters
    in code page 037) serializes to exactly 83 bytes: the code page 037
    encoding of the id padded to 10 (10 bytes), of the name padded to 20
    (20 bytes), the packed amount (3 bytes) and the text padded to 50 (50
    bytes). A record of code page 037 characters with [|amount| < 10^4300]
    that has a longer field or an amount of more than five digits is not
    cut: it serializes to more than 83 bytes. *)
Theorem serialize_83 (r : record) :
  (layout_ok r ->
   exists a b c d, serialize r = Some (a ++ b ++ c ++ d)
     /\ Cp037.encode (ljust (rec_id r) 10) = Some a
     /\ Cp037.encode (ljust (name r) 20) = Some b
     /\ pack_comp3 (amount r) 3 = Some c
     /\ Cp037.encode (ljust (text r) 50) = Some d
     /\ length a = 10%nat /\ length b = 20%nat /\ length c = 3%nat
     /\ length d = 50%nat /\ length (a ++ b ++ c ++ d) = 83%nat)
  /\ (encodable r -> oversize r ->
      exists bs, serialize r = Some bs /\ (83 < length bs)%nat).
Proof.
  split.
  - intros ((Hi & Hn & Ht & Ha) & Ci & Cn & Ct).
    destruct (Layout.field_length _ 10 Ci Hi) as (a & Ea & La).
    destruct (Layout.field_length _ 20 Cn Hn) as (b & Eb & Lb).
    destruct (Comp3.comp3_roundtrip (amount r) Ha) as (c & Ec & Lc & _).
    destruct (Layout.field_length _ 50 Ct Ht) as (d & Ed & Ld).
    exists a, b, c, d. unfold serialize, create_ebcdic_record.
    rewrite Ea, Eb, Ec, Ed. rewrite !length_app. repeat split; auto; lia.
  - intros He Ho. destruct (Oversize.serialize_len r He) as (bs & E & _ & L).
    exists bs. auto.
Qed.

Lemma serialize_83_witness :
  let r := mk_record (ascii_str "2") (ascii_str "SRV-DB-01") (-50) (ascii_str "ERROR: disk fail") in
  layout_ok r /\ exists a b c d, serialize r = Some (a ++ b ++ c ++ d)
     /\ Cp037.encode (ljust (rec_id r) 10) = Some a
     /\ Cp037.encode (ljust (name r) 20) = Some b
     /\ pack_comp3 (amount r) 3 = Some c
     /\ Cp037.encode (ljust (text r) 50) = Some d
     /\ length a = 10%nat /\ length b = 20%nat /\ length c = 3%nat
     /\ length d = 50%nat /\ length (a ++ b ++ c ++ d) = 83%nat.
Proof.
  intros r. subst r.
  match goal with |- ?A /\ _ => assert (H : A) by layout_facts end.
  split; [exact H|]. exact (proj1 (serialize_83 _) H).
Defined.

(** C3 counterexample. An 11-character id is padded by [f"{rec_id:<10}"]
    but not cut: the record serializes to 84 bytes. *)
Lemma serialize_83_counterexample :
  option_map (@length byte)
    (serialize (mk_record (ascii_str "12345678901") (ascii_str "Alice") 100 (ascii_str "ok")))
  = Some 84%nat.
Proof. vm_compute. reflexivity. Qed.

(** ** C4: out-of-range amounts *)

(** C4 (amended). [pack_comp3] has no range check: for
    [10^5 <= |v| < 10^4300] it raises nothing and returns a packed value
    longer than 3 bytes. The only error it raises is the [ValueError] of
    [str()] past 4300 digits, for [|v| >= 10^4300]. *)
Theorem pack_comp3_no_range_check (v : Z) :
  (100000 <= Z.abs v)%Z ->
  ((Z.abs v < 10 ^ 4300)%Z -> exists bs, pack_comp3 v 3 = Some bs /\ (4 <= length bs)%nat)
  /\ ((10 ^ 4300 <= Z.abs v)%Z -> pack_comp3 v 3 = None).
Proof.
  intros Hv. split.
  - intros Hs. destruct (Oversize.pack_len v Hs) as (bs & E & _ & L).
    exists bs. auto.
  - intros Hb. unfold pack_comp3.
    rewrite Digits.py_str_fail; [reflexivity|].
    change 4300%Z with (Z.of_nat int_max_str_digits) in Hb.
    rewrite <- nat_N_Z, <- (N2Z.inj_pow 10) in Hb. lia.
Qed.

Lemma pack_comp3_no_range_check_witness :
  (100000 <= Z.abs 100000)%Z
  /\ exists bs, pack_comp3 100000 3 = Some bs /\ (4 <= length bs)%nat.
Proof.
  assert (H : (100000 <= Z.abs 100000)%Z) by (simpl; lia).
  assert (Hs : (Z.abs 100000 < 10 ^ 4300)%Z) by (apply Z.ltb_lt; vm_compute; reflexivity).
  split; [exact H|]. exact (proj1 (pack_comp3_no_range_check 100000 H) Hs).
Defined.

(** C4 counterexample. [pack_comp3(100000)] and [pack_comp3(-100000)]
    return [10 00 00 0C] and [10 00 00 0D] instead of failing. *)
Lemma pack_comp3_range_counterexample :
  pack_comp3 100000 3 = Some [x10; x00; x00; x0c]
  /\ pack_comp3 (-100000) 3 = Some [x10; x00; x00; x0d].
Proof. split; reflexivity. Qed.

(** ** C5: long text values *)

(** C5 (amended). [f"{value:<width}"] pads a shorter value but does not cut
    a longer one: a value of at least [width] characters of code page 037
    is encoded in full, one byte per character, and decoding gives the
    value stripped of leading and trailing whitespace. *)
Theorem encode_text_no_truncation (s : list N) (w : nat) :
  in_cp037 s -> (w <= length s)%nat ->
  exists bs, encode_text s w = Some bs /\ length bs = length s
    /\ decode_text bs = Some (py_strip s).
Proof.
  intros Hc Hw. unfold encode_text. rewrite Layout.ljust_long by exact Hw.
  destruct (Cp037Facts.encode_ok s Hc) as (bs & E & L & D).
  exists bs. unfold decode_text. rewrite E, D. auto.
Qed.

Lemma encode_text_no_truncation_witness :
  let s := ascii_str "a string longer than ten chars" in
  in_cp037 s /\ (10 <= length s)%nat
  /\ exists bs, encode_text s 10 = Some bs /\ length bs = length s
    /\ decode_text bs = Some (py_strip s).
Proof.
  intros s. subst s.
  assert (H1 : in_cp037 (ascii_str "a string longer than ten chars"))
    by (apply in_cp037_b; reflexivity).
  assert (H2 : (10 <= length (ascii_str "a string longer than ten chars"))%nat)
    by (simpl; lia).
  split; [exact H1|]. split; [exact H2|].
  exact (encode_text_no_truncation _ 10 H1 H2).
Defined.

(** C5 counterexample. [decode_text(encode_text("a string longer than
    ten chars", 10))] is the whole 30-character string, not its first 10
    characters. *)
Lemma encode_text_truncation_counterexample :
  let s := ascii_str "a string longer than ten chars" in
  option_map (@length byte) (encode_text s 10) = Some 30%nat
  /\ (let? bs := encode_text s 10 in decode_text bs) = Some s
  /\ (let? bs := encode_text s 10 in decode_text bs) <> Some (firstn 10 s).
Proof.
  intros s. subst s. split; [vm_compute; reflexivity|].
  split; [vm_compute; reflexivity|]. vm_compute. discriminate.
Qed.

(** ** C6: sign fidelity *)

(** C6. For [-99999 <= v <= 99999], [pack_comp3 v] is 3 bytes that
    [unpack_comp3] decodes to [v]; the sign nibble is [0xC] for [v >= 0]
    (so [0] is packed non-negative) and [0xD] otherwise. *)
Theorem sign_fidelity (v : Z) :
  (-99999 <= v <= 99999)%Z ->
  exists bs, pack_comp3 v 3 = Some bs /\ length bs = 3%nat
    /\ unpack_comp3 bs = Some v
    /\ last (hex_nibbles bs) 0%N = (if (0 <=? v)%Z then 12%N else 13%N).
Proof. intros Hv. apply Comp3.comp3_roundtrip. lia. Qed.

Lemma sign_fidelity_witness :
  (-99999 <= 0 <= 99999)%Z
  /\ exists bs, pack_comp3 0 3 = Some bs /\ length bs = 3%nat
    /\ unpack_comp3 bs = Some 0%Z
    /\ last (hex_nibbles bs) 0%N = (if (0 <=? 0)%Z then 12%N else 13%N).
Proof.
  assert (H : (-99999 <= 0 <= 99999)%Z) by lia.
  split; [exact H|]. exact (sign_fidelity 0 H).
Defined.

(** ** C7: truncated tail *)

(** C7. A source of [83 * n + k] bytes with [0 < k < 83] yields exactly
    [n] records and no diagnostic; the trailing [k] bytes play no part. *)
Theorem truncated_tail (src : list byte) (n k : nat) :
  length src = (rec_len * n + k)%nat -> (0 < k < rec_len)%nat ->
  length (fst (parse_mainframe_file src)) = n
  /\ snd (parse_mainframe_file src) = []
  /\ parse_mainframe_file src = parse_mainframe_file (firstn (rec_len * n) src).
Proof.
  intros Hl Hk.
  assert (Hn : (length src / rec_len)%nat = n)
    by (symmetry; apply (Nat.div_unique _ _ _ k); lia).
  assert (Hf : length (firstn (rec_len * n) src) = (rec_len * n)%nat)
    by (rewrite length_firstn; lia).
  assert (Hn' : (length (firstn (rec_len * n) src) / rec_len)%nat = n)
    by (rewrite Hf, Nat.mul_comm; apply Nat.div_mul; discriminate).
  destruct (Reader.reader_all_chunks src) as (rs & E & F & L).
  destruct (Reader.reader_all_chunks (firstn (rec_len * n) src)) as (rs' & E' & F' & _).
  rewrite Hn in F, L. rewrite Hn', Reader.full_chunks_firstn in F' by lia.
  rewrite E, E', (Reader.Forall2_det _ _ _ F F'). simpl.
  rewrite <- (Reader.Forall2_det _ _ _ F F'). auto.
Qed.

Lemma truncated_tail_witness :
  let src := repeat x40 (rec_len * 2 + 5) in
  length src = (rec_len * 2 + 5)%nat /\ (0 < 5 < rec_len)%nat
  /\ length (fst (parse_mainframe_file src)) = 2%nat
  /\ snd (parse_mainframe_file src) = []
  /\ parse_mainframe_file src = parse_mainframe_file (firstn (rec_len * 2) src).
Proof.
  intros src. subst src.
  assert (H1 : length (repeat x40 (rec_len * 2 + 5)) = (rec_len * 2 + 5)%nat)
    by (apply repeat_length).
  assert (H2 : (0 < 5 < rec_len)%nat) by (unfold rec_len; lia).
  split; [exact H1|]. split; [exact H2|].
  exact (truncated_tail _ 2 5 H1 H2).
Defined.

(** ** C8: decoding well-formed packed decimal *)

(** C8. For three bytes whose five digit nibbles are decimal digits,
    [unpack_comp3] reads those nibbles in order as a five-digit number and
    negates it exactly when the last nibble is [0xD]. *)
Theorem unpack_comp3_bcd (B1 B2 B3 : byte) :
  (Byte.to_N B1 / 16 < 10)%N -> (Byte.to_N B1 mod 16 < 10)%N ->
  (Byte.to_N B2 / 16 < 10)%N -> (Byte.to_N B2 mod 16 < 10)%N ->
  (Byte.to_N B3 / 16 < 10)%N ->
  unpack_comp3 [B1; B2; B3] =
    Some ((if (Byte.to_N B3 mod 16 =? 13)%N then (-1) else 1)
          * Z.of_N (Byte.to_N B1 / 16 * 10000 + Byte.to_N B1 mod 16 * 1000
                    + Byte.to_N B2 / 16 * 100 + Byte.to_N B2 mod 16 * 10
                    + Byte.to_N B3 / 16))%Z.
Proof.
  intros H1 H2 H3 H4 H5.
  assert (Hh : hex_nibbles [B1; B2; B3] =
    [(Byte.to_N B1 / 16)%N; (Byte.to_N B1 mod 16)%N; (Byte.to_N B2 / 16)%N;
     (Byte.to_N B2 mod 16)%N; (Byte.to_N B3 / 16)%N; (Byte.to_N B3 mod 16)%N]).
  { change [B1; B2; B3] with ([B1] ++ [B2] ++ [B3]).
    rewrite !Comp3.hex_nibbles_app, !Comp3.hex_nibbles_div. reflexivity. }
  rewrite (Comp3.unpack_comp3_three _ _ _ _ _ _ _ _ _ Hh H1 H2 H3 H4 H5).
  cbv zeta. f_equal. unfold py_int_dec. cbn [fold_left].
  destruct (Byte.to_N B3 mod 16 =? 13)%N; lia.
Qed.

Lemma unpack_comp3_bcd_witness :
  (Byte.to_N x12 / 16 < 10)%N /\ (Byte.to_N x12 mod 16 < 10)%N
  /\ (Byte.to_N x34 / 16 < 10)%N /\ (Byte.to_N x34 mod 16 < 10)%N
  /\ (Byte.to_N x5d / 16 < 10)%N
  /\ unpack_comp3 [x12; x34; x5d] =
    Some ((if (Byte.to_N x5d mod 16 =? 13)%N then (-1) else 1)
          * Z.of_N (Byte.to_N x12 / 16 * 10000 + Byte.to_N x12 mod 16 * 1000
                    + Byte.to_N x34 / 16 * 100 + Byte.to_N x34 mod 16 * 10
                    + Byte.to_N x5d / 16))%Z.
Proof.
  assert (H1 : (Byte.to_N x12 / 16 < 10)%N) by reflexivity.
  assert (H2 : (Byte.to_N x12 mod 16 < 10)%N) by reflexivity.
  assert (H3 : (Byte.to_N x34 / 16 < 10)%N) by reflexivity.
  assert (H4 : (Byte.to_N x34 mod 16 < 10)%N) by reflexivity.
  assert (H5 : (Byte.to_N x5d / 16 < 10)%N) by reflexivity.
  repeat (split; [assumption|]).
  exact (unpack_comp3_bcd _ _ _ H1 H2 H3 H4 H5).
Defined.

(** ** C9: the writer *)

(** C9 (amended). [dataframe_to_dat] serializes every row in input order
    and returns the concatenation; if any row fails to serialize the whole
    write fails with no output; the output is [83 * len(rows)] bytes when
    every row fits the layout (id at most 10, name at most 20, text at most
    50 characters, [|amount| <= 99999], code page 037 characters). When
    every row is encodable (code page 037 characters, [|amount| < 10^4300])
    and one of them has a longer field or an amount of more than five
    digits, the write succeeds with more than [83 * len(rows)] bytes. *)
Theorem writer_in_order (rows : list record) :
  (forall bs, dataframe_to_dat rows = Some bs <->
     exists bss, Forall2 (fun r b => serialize r = Some b) rows bss /\ bs = concat bss)
  /\ ((exists r, In r rows /\ serialize r = None) -> dataframe_to_dat rows = None)
  /\ (Forall layout_ok rows ->
      exists bs, dataframe_to_dat rows = Some bs /\ length bs = (83 * length rows)%nat)
  /\ (Forall encodable rows -> (exists r, In r rows /\ oversize r) ->
      exists bs, dataframe_to_dat rows = Some bs /\ (83 * length rows < length bs)%nat).
Proof.
  unfold dataframe_to_dat. rewrite Writer.loop_concat. split; [|split; [|split]].
  - intros bs. split.
    + destruct (serialize_all rows) as [bss|] eqn:E; simpl; [|discriminate].
      intros H. injection H as <-. exists bss.
      split; [apply Writer.serialize_all_Forall2; exact E|reflexivity].
    + intros (bss & H & ->). apply Writer.serialize_all_Forall2 in H.
      rewrite H. reflexivity.
  - intros (r & Hin & Hr). rewrite (Writer.serialize_all_none rows r Hin Hr). reflexivity.
  - intros H. destruct (Writer.serialize_all_83 rows H) as (bss & E & L).
    rewrite E. exists (concat bss). auto.
  - intros H Ho. destruct (Oversize.writer_len rows H) as (bss & E & _ & L).
    rewrite E. exists (concat bss). auto.
Qed.

Lemma writer_in_order_witness :
  Forall layout_ok sample_records
  /\ exists bs, dataframe_to_dat sample_records = Some bs
       /\ length bs = (83 * length sample_records)%nat.
Proof.
  assert (H : Forall layout_ok sample_records) by (repeat constructor; layout_facts).
  split; [exact H|]. exact (proj1 (proj2 (proj2 (writer_in_order sample_records))) H).
Defined.

(** C9 counterexample. A row with an 11-character id serializes without
    error to 84 bytes, so the output of one row is not 83 bytes. *)
Lemma writer_length_counterexample :
  option_map (@length byte)
    (dataframe_to_dat [mk_record (ascii_str "12345678901") (ascii_str "Alice") 100 (ascii_str "ok")])
  = Some 84%nat.
Proof. vm_compute. reflexivity. Qed.

(** ** C10: leniency of the packed-decimal decoder *)




(** A non-digit nibble is removed and the later digits move up:
    [1a 2c] reads the digits "12", not "102". *)
Example unpack_comp3_drops_nibble : unpack_comp3 [x1a; x2c] = Some 12%Z.
Proof. reflexivity. Qed.

(** * Further properties of the code *)

Module DeleteFacts.

Lemma filter_keep_all {A} (f : A -> bool) l : Forall (fun x => f x = true) l -> filter f l = l.
Proof. induction 1 as [|x l Hx _ IH]; cbn [filter]; [reflexivity|]. rewrite Hx, IH. reflexivity. Qed.

Lemma filter_drop_all {A} (f : A -> bool) l : Forall (fun x => f x = false) l -> filter f l = [].
Proof. induction 1 as [|x l Hx _ IH]; cbn [filter]; [reflexivity|]. rewrite Hx. exact IH. Qed.

End DeleteFacts.

(** ** Reader and writer *)

(** X1. Every record [parse_mainframe_file] yields, from any file, fits
    the layout (id at most 10, name at most 20, text at most 50 characters,
    all of code page 037, amount of magnitude at most 99999) and has no
    leading or trailing whitespace in its text fields. *)
Theorem reader_output_clean (src : list byte) (r : record) :
  In r (fst (parse_mainframe_file src)) -> clean_record r.
Proof. apply ReaderFacts.reader_clean. Qed.

Lemma reader_output_clean_witness :
  let r := mk_record (ascii_str "3") (ascii_str "Bob") 9999 (ascii_str "AUDIT: passed") in
  In r (fst (parse_mainframe_file sample_source)) /\ clean_record r.
Proof.
  intros r.
  assert (H : In r (fst (parse_mainframe_file sample_source)))
    by (vm_compute; right; right; left; reflexivity).
  split; [exact H|]. exact (reader_output_clean sample_source r H).
Defined.

(** X2. [unpack_comp3] on [n] bytes gives a value of magnitude below
    [10 ^ (2n - 1)]: at most [2n - 1] digit nibbles are read. *)
Theorem unpack_comp3_magnitude (raw : list byte) (v : Z) :
  unpack_comp3 raw = Some v -> (Z.abs v < 10 ^ Z.of_nat (2 * length raw - 1))%Z.
Proof. apply ReaderFacts.unpack_bound. Qed.

Lemma unpack_comp3_magnitude_witness :
  unpack_comp3 [x99; x99; x9d] = Some (-99999)%Z
  /\ (Z.abs (-99999) < 10 ^ Z.of_nat (2 * length [x99; x99; x9d] - 1))%Z.
Proof.
  assert (H : unpack_comp3 [x99; x99; x9d] = Some (-99999)%Z) by reflexivity.
  split; [exact H|]. exact (unpack_comp3_magnitude _ _ H).
Defined.

(** X3. Reading the concatenation of a file of whole records [a] and any
    file [b] gives the records of [a] followed by those of [b], and no
    diagnostic. *)
Theorem reader_concat (a b : list byte) (m : nat) :
  length a = (rec_len * m)%nat ->
  parse_mainframe_file (a ++ b) =
    (fst (parse_mainframe_file a) ++ fst (parse_mainframe_file b), []).
Proof. apply Files.reader_app. Qed.

Lemma reader_concat_witness :
  length sample_source = (rec_len * 5)%nat
  /\ parse_mainframe_file (sample_source ++ [x00]) =
       (fst (parse_mainframe_file sample_source) ++ fst (parse_mainframe_file [x00]), []).
Proof.
  assert (H : length sample_source = (rec_len * 5)%nat) by (vm_compute; reflexivity).
  split; [exact H|]. exact (reader_concat _ _ 5 H).
Defined.

(** X4. [dataframe_to_dat] of two frames one after the other is the
    concatenation of the two outputs; it fails when either part fails. *)
Theorem writer_concat (rows1 rows2 : list record) :
  dataframe_to_dat (rows1 ++ rows2) =
    (let? a := dataframe_to_dat rows1 in
     let? b := dataframe_to_dat rows2 in
     Some (a ++ b)).
Proof. apply Files.writer_app. Qed.

(** X5. Rows that fit the layout and have no edge whitespace in their text
    fields are written by [dataframe_to_dat] as 83 bytes each, and
    [parse_mainframe_file] reads exactly those rows back, with no
    diagnostic. *)
Theorem write_then_read (rows : list record) :
  Forall clean_record rows ->
  exists bs, dataframe_to_dat rows = Some bs
    /\ length bs = (rec_len * length rows)%nat
    /\ parse_mainframe_file bs = (rows, []).
Proof. apply Files.write_read. Qed.

Lemma write_then_read_witness :
  Forall clean_record sample_records
  /\ exists bs, dataframe_to_dat sample_records = Some bs
       /\ length bs = (rec_len * length sample_records)%nat
       /\ parse_mainframe_file bs = (sample_records, []).
Proof.
  assert (H : Forall clean_record sample_records)
    by (repeat constructor; unfold clean_record, layout_ok, within_layout; layout_facts).
  split; [exact H|]. exact (write_then_read _ H).
Defined.

(** X6. Any selection of the records read from a file, in any order (as
    the app's filtered frames are), is written by [dataframe_to_dat] and
    read back as exactly that selection. *)
Theorem reread_selection (src : list byte) (rows : list record) :
  (forall r, In r rows -> In r (fst (parse_mainframe_file src))) ->
  exists bs, dataframe_to_dat rows = Some bs /\ parse_mainframe_file bs = (rows, []).
Proof.
  intros Hin.
  assert (H : Forall clean_record rows).
  { apply Forall_forall. intros r Hr. apply (ReaderFacts.reader_clean src), Hin, Hr. }
  destruct (Files.write_read rows H) as (bs & E & _ & P). eauto.
Qed.

Lemma reread_selection_witness :
  let rows := rev (fst (parse_mainframe_file corrupted_source)) in
  (forall r, In r rows -> In r (fst (parse_mainframe_file corrupted_source)))
  /\ exists bs, dataframe_to_dat rows = Some bs /\ parse_mainframe_file bs = (rows, []).
Proof.
  intros rows.
  assert (H : forall r, In r rows -> In r (fst (parse_mainframe_file corrupted_source)))
    by (intros r Hr; unfold rows in Hr; apply (proj2 (in_rev _ r)), Hr).
  split; [exact H|]. exact (reread_selection _ _ H).
Defined.

(** X7. For every width [1 <= w <= 2150] (past it the [2w - 1] digits
    exceed [int()]'s limit of 4300) and every [v] with
    [|v| < 10 ^ (2w - 1)], [pack_comp3 v w] gives [w] bytes that
    [unpack_comp3] reads back as [v]. *)
Theorem pack_comp3_width_roundtrip (v : Z) (w : nat) :
  (1 <= w <= 2150)%nat -> (Z.abs v < 10 ^ Z.of_nat (2 * w - 1))%Z ->
  exists bs, pack_comp3 v w = Some bs /\ length bs = w /\ unpack_comp3 bs = Some v.
Proof. apply PackWidth.pack_roundtrip. Qed.

Lemma pack_comp3_width_roundtrip_witness :
  (1 <= 4 <= 2150)%nat /\ (Z.abs (-1234567) < 10 ^ Z.of_nat (2 * 4 - 1))%Z
  /\ exists bs, pack_comp3 (-1234567) 4 = Some bs /\ length bs = 4%nat
       /\ unpack_comp3 bs = Some (-1234567)%Z.
Proof.
  assert (H1 : (1 <= 4 <= 2150)%nat) by lia.
  assert (H2 : (Z.abs (-1234567) < 10 ^ Z.of_nat (2 * 4 - 1))%Z) by (simpl; lia).
  split; [exact H1|]. split; [exact H2|]. exact (pack_comp3_width_roundtrip _ _ H1 H2).
Defined.

(** X8. A text field of code page 037 no longer than its width is encoded
    in exactly [width] bytes, and the reader's decoding gives it back with
    its leading and trailing whitespace removed. *)
Theorem text_field_strips (s : list N) (w : nat) :
  in_cp037 s -> (length s <= w)%nat ->
  exists bs, encode_text s w = Some bs /\ length bs = w /\ decode_text bs = Some (py_strip s).
Proof. apply GenFacts.field_strip. Qed.

Lemma text_field_strips_witness :
  let s := ascii_str " ERROR: disk full " in
  in_cp037 s /\ (length s <= 50)%nat
  /\ exists bs, encode_text s 50 = Some bs /\ length bs = 50%nat
       /\ decode_text bs = Some (py_strip s).
Proof.
  intros s.
  assert (H1 : in_cp037 s) by (apply in_cp037_b; reflexivity).
  assert (H2 : (length s <= 50)%nat) by (simpl; lia).
  split; [exact H1|]. split; [exact H2|]. exact (text_field_strips _ _ H1 H2).
Defined.

(** ** The analysis step of app.py *)

(** X9. After the analysis, every row is in exactly one of the green,
    yellow and red frames, and their sizes add up to the number of
    records. *)
Theorem tier_partition (is_important : list N -> bool) (pii_hits : list N -> nat)
    (df : list record) :
  let data := run_analysis is_important pii_hits df in
  (forall t, In t data ->
     (In t (green_df data) /\ ~ In t (yellow_df data) /\ ~ In t (red_df data))
     \/ (~ In t (green_df data) /\ In t (yellow_df data) /\ ~ In t (red_df data))
     \/ (~ In t (green_df data) /\ ~ In t (yellow_df data) /\ In t (red_df data)))
  /\ (length (green_df data) + length (yellow_df data) + length (red_df data) = length df)%nat.
Proof.
  intros data. pose proof (AnalysisFacts.analysis_ok is_important pii_hits df) as Hok.
  split.
  - intros t Ht.
    unfold green_df, yellow_df, red_df, tier_df. fold GREEN YELLOW RED.
    rewrite !filter_In.
    destruct (AnalysisFacts.tier_ok_flags t (proj1 (Forall_forall _ _) Hok t Ht))
      as [(-> & -> & -> & _) | [(-> & -> & -> & _) | (-> & -> & -> & _)]];
      [left|right; left|right; right]; repeat split; auto; intros [_ H]; discriminate H.
  - rewrite <- (AnalysisFacts.run_analysis_length is_important pii_hits df).
    apply AnalysisFacts.partition, Hok.
Qed.

(** X10. The green download, [dataframe_to_dat(green_df)] after the
    analysis of the records read from any file, is a file the reader reads
    back as exactly the records the classifier marked important, unchanged
    and in file order, with no diagnostic. *)
Theorem green_download_reads_back (is_important : list N -> bool)
    (pii_hits : list N -> nat) (src : list byte) :
  let df := fst (parse_mainframe_file src) in
  exists bs,
    dataframe_to_dat (map row (green_df (run_analysis is_important pii_hits df))) = Some bs
    /\ parse_mainframe_file bs = (filter (fun r => is_important (text r)) df, []).
Proof.
  intros df. rewrite AnalysisFacts.green_rows.
  assert (H : Forall clean_record (filter (fun r => is_important (text r)) df)).
  { apply Forall_forall. intros r Hr. apply filter_In in Hr as [Hr _].
    apply (ReaderFacts.reader_clean src), Hr. }
  destruct (Files.write_read _ H) as (bs & E & _ & P). eauto.
Qed.

(** X11. The analysis keeps the rows in place: row [i] of the result is
    record [i] with its tier and PII count from the classifier, its name
    replaced by [SYSTEM-{i + 1:03d}] exactly when the record is not
    green, and its id, amount and text unchanged. *)
Theorem analysis_row (is_important : list N -> bool) (pii_hits : list N -> nat)
    (df : list record) (i : nat) (r : record) :
  nth_error df i = Some r ->
  nth_error (run_analysis is_important pii_hits df) i =
    Some (mk_trow
      (if is_important (text r) then r
       else mk_record (rec_id r) (system_id i) (amount r) (text r))
      (fst (classify is_important pii_hits (text r)))
      (snd (classify is_important pii_hits (text r)))).
Proof.
  intros H. rewrite AnalysisFacts.run_analysis_pre, AnalysisFacts.rename_nth.
  unfold pre_rows. rewrite nth_error_map, H. cbn [option_map tier row pii_count].
  destruct AnalysisFacts.tier_words as (G1 & _ & _ & Y1 & _ & _ & R1 & _ & _).
  unfold classify. destruct (is_important (text r)); cbn [fst snd].
  - fold GREEN. rewrite G1. reflexivity.
  - fold GREEN. destruct (Nat.ltb 0 (pii_hits (text r))); cbn [fst snd];
      [rewrite Y1|rewrite R1]; reflexivity.
Qed.

Lemma analysis_row_witness :
  let imp := fun t => py_contains t (ascii_str "CONFIRM") in
  let pii := fun _ : list N => 0%nat in
  let r := mk_record (ascii_str "2") (ascii_str "SRV-DB-01") (-50) (ascii_str "ERROR: disk fail") in
  nth_error sample_records 1 = Some r
  /\ nth_error (run_analysis imp pii sample_records) 1 =
       Some (mk_trow (if imp (text r) then r
                      else mk_record (rec_id r) (system_id 1) (amount r) (text r))
                     (fst (classify imp pii (text r))) (snd (classify imp pii (text r)))).
Proof.
  intros imp pii r.
  assert (H : nth_error sample_records 1 = Some r) by reflexivity.
  split; [exact H|]. exact (analysis_row imp pii _ 1 r H).
Defined.

(** X12. The names the analysis gives to non-green rows are distinct: two
    different rows that are not green never share a name. *)
Theorem anonymized_names_distinct (is_important : list N -> bool)
    (pii_hits : list N -> nat) (df : list record) (i j : nat) (ti tj : trow) :
  i <> j ->
  nth_error (run_analysis is_important pii_hits df) i = Some ti ->
  nth_error (run_analysis is_important pii_hits df) j = Some tj ->
  py_contains (tier ti) (ascii_str "Green") = false ->
  py_contains (tier tj) (ascii_str "Green") = false ->
  name (row ti) <> name (row tj).
Proof.
  intros Hij Hi Hj Gi Gj.
  rewrite AnalysisFacts.run_analysis_pre, AnalysisFacts.rename_nth in Hi, Hj.
  destruct (nth_error (pre_rows _ _ _) i) as [ui|]; [|discriminate].
  destruct (nth_error (pre_rows _ _ _) j) as [uj|]; [|discriminate].
  cbn [option_map] in Hi, Hj. fold GREEN in Hi, Hj, Gi, Gj.
  destruct (py_contains (tier ui) GREEN) eqn:Ei; cbn [negb] in Hi;
    injection Hi as <-; [rewrite Ei in Gi; discriminate|].
  destruct (py_contains (tier uj) GREEN) eqn:Ej; cbn [negb] in Hj;
    injection Hj as <-; [rewrite Ej in Gj; discriminate|].
  cbn [row name]. intros E. apply AnalysisFacts.system_id_inj in E. lia.
Qed.

Lemma anonymized_names_distinct_witness :
  let imp := fun _ : list N => false in
  let pii := fun _ : list N => 0%nat in
  let d := run_analysis imp pii sample_records in
  let dummy := mk_trow (mk_record [] [] 0 []) [] 0 in
  let ti := match nth_error d 0 with Some t => t | None => dummy end in
  let tj := match nth_error d 1 with Some t => t | None => dummy end in
  (0 <> 1)%nat /\ nth_error d 0 = Some ti /\ nth_error d 1 = Some tj
  /\ py_contains (tier ti) (ascii_str "Green") = false
  /\ py_contains (tier tj) (ascii_str "Green") = false
  /\ name (row ti) <> name (row tj).
Proof.
  intros imp pii d dummy ti tj.
  assert (H0 : (0 <> 1)%nat) by lia.
  assert (H1 : nth_error d 0 = Some ti) by (vm_compute; reflexivity).
  assert (H2 : nth_error d 1 = Some tj) by (vm_compute; reflexivity).
  assert (H3 : py_contains (tier ti) (ascii_str "Green") = false) by (vm_compute; reflexivity).
  assert (H4 : py_contains (tier tj) (ascii_str "Green") = false) by (vm_compute; reflexivity).
  repeat (split; [assumption|]).
  exact (anonymized_names_distinct imp pii sample_records 0 1 ti tj H0 H1 H2 H3 H4).
Defined.

(** X13. [build_summary] of the green and of the red frame never reports
    PII detections: it is "No records in this category." for an empty
    frame and "<n> records." otherwise. *)
Theorem summary_green_red (is_important : list N -> bool) (pii_hits : list N -> nat)
    (df : list record) :
  let data := run_analysis is_important pii_hits df in
  (build_summary (green_df data) =
     if Nat.eqb (length (green_df data)) 0 then ascii_str "No records in this category."
     else str_of_N (N.of_nat (length (green_df data))) ++ ascii_str " records.")
  /\ (build_summary (red_df data) =
     if Nat.eqb (length (red_df data)) 0 then ascii_str "No records in this category."
     else str_of_N (N.of_nat (length (red_df data))) ++ ascii_str " records.").
Proof.
  intros data. pose proof (AnalysisFacts.analysis_ok is_important pii_hits df) as H.
  fold data in H. split; apply AnalysisFacts.summary_no_pii, AnalysisFacts.Forall_tier_filter;
    try exact H; intros t Ht Hc; destruct (AnalysisFacts.tier_ok_flags t Ht)
      as [(G & Y & R & P) | [(G & Y & R & P) | (G & Y & R & P)]];
    fold GREEN RED in Hc; congruence.
Qed.

(** X14. [build_summary] of a non-empty yellow frame reports its [n]
    records and a number of PII detections of at least [n]. *)
Theorem summary_yellow (is_important : list N -> bool) (pii_hits : list N -> nat)
    (df : list record) :
  yellow_df (run_analysis is_important pii_hits df) <> [] ->
  let y := yellow_df (run_analysis is_important pii_hits df) in
  exists k, (length y <= k)%nat
    /\ build_summary y =
         str_of_N (N.of_nat (length y)) ++ ascii_str " records " ++ [8212%N] ++ ascii_str " "
         ++ str_of_N (N.of_nat k) ++ ascii_str " PII detections.".
Proof.
  intros Hne y.
  assert (Hp : Forall (fun t => (0 < pii_count t)%nat) y).
  { apply AnalysisFacts.Forall_tier_filter; [apply AnalysisFacts.analysis_ok|].
    intros t Ht Hc. destruct (AnalysisFacts.tier_ok_flags t Ht)
      as [(G & Y & R & P) | [(G & Y & R & P) | (G & Y & R & P)]];
    fold YELLOW in Hc; congruence. }
  pose proof (AnalysisFacts.sum_pos y Hp) as Hs.
  set (k := fold_left Nat.add (map pii_count y) 0%nat) in *.
  assert (Hn : length y <> 0%nat)
    by (unfold y; destruct (yellow_df _); [contradiction|discriminate]).
  exists k. split; [exact Hs|].
  unfold build_summary. fold k.
  destruct (Nat.eqb_spec (length y) 0); [contradiction|].
  destruct (Nat.eqb_spec k 0); [lia|]. cbn [py_join]. rewrite <- !app_assoc. reflexivity.
Qed.

Lemma summary_yellow_witness :
  let imp := fun _ : list N => false in
  let pii := fun t : list N => if py_contains t (ascii_str "ERROR") then 2%nat else 0%nat in
  yellow_df (run_analysis imp pii sample_records) <> []
  /\ let y := yellow_df (run_analysis imp pii sample_records) in
     exists k, (length y <= k)%nat
       /\ build_summary y =
            str_of_N (N.of_nat (length y)) ++ ascii_str " records " ++ [8212%N] ++ ascii_str " "
            ++ str_of_N (N.of_nat k) ++ ascii_str " PII detections.".
Proof.
  intros imp pii.
  assert (H : yellow_df (run_analysis imp pii sample_records) <> [])
    by (vm_compute; discriminate).
  split; [exact H|]. exact (summary_yellow imp pii sample_records H).
Defined.

(** X15. The deletion step, [data = pd.concat([green_df, yellow_df])],
    keeps the green and the yellow frames as they were and leaves no red
    row; the rows kept and the rows deleted add up to all the records. *)
Theorem delete_red_step (is_important : list N -> bool) (pii_hits : list N -> nat)
    (df : list record) :
  let data := run_analysis is_important pii_hits df in
  let kept := green_df data ++ yellow_df data in
  green_df kept = green_df data /\ yellow_df kept = yellow_df data /\ red_df kept = []
  /\ (length kept + length (red_df data) = length df)%nat.
Proof.
  intros data kept.
  pose proof (AnalysisFacts.analysis_ok is_important pii_hits df) as H. fold data in H.
  assert (Hg : Forall (fun t => py_contains (tier t) GREEN = true /\ py_contains (tier t) YELLOW = false
                        /\ py_contains (tier t) RED = false) (green_df data)).
  { apply AnalysisFacts.Forall_tier_filter; [exact H|]. intros t Ht Hc.
    destruct (AnalysisFacts.tier_ok_flags t Ht) as [(G & Y & R & P) | [(G & Y & R & P) | (G & Y & R & P)]];
      fold GREEN in Hc; repeat split; congruence. }
  assert (Hy : Forall (fun t => py_contains (tier t) GREEN = false /\ py_contains (tier t) YELLOW = true
                        /\ py_contains (tier t) RED = false) (yellow_df data)).
  { apply AnalysisFacts.Forall_tier_filter; [exact H|]. intros t Ht Hc.
    destruct (AnalysisFacts.tier_ok_flags t Ht) as [(G & Y & R & P) | [(G & Y & R & P) | (G & Y & R & P)]];
      fold YELLOW in Hc; repeat split; congruence. }
  assert (Happ : forall w, tier_df w kept = tier_df w (green_df data) ++ tier_df w (yellow_df data))
    by (intros w; apply filter_app).
  assert (Hgg : tier_df GREEN (green_df data) = green_df data)
    by (apply DeleteFacts.filter_keep_all; eapply Forall_impl; [|exact Hg]; cbv beta; tauto).
  assert (Hyy : tier_df YELLOW (yellow_df data) = yellow_df data)
    by (apply DeleteFacts.filter_keep_all; eapply Forall_impl; [|exact Hy]; cbv beta; tauto).
  assert (Hgy : tier_df YELLOW (green_df data) = [])
    by (apply DeleteFacts.filter_drop_all; eapply Forall_impl; [|exact Hg]; cbv beta; tauto).
  assert (Hyg : tier_df GREEN (yellow_df data) = [])
    by (apply DeleteFacts.filter_drop_all; eapply Forall_impl; [|exact Hy]; cbv beta; tauto).
  assert (Hgr : tier_df RED (green_df data) = [])
    by (apply DeleteFacts.filter_drop_all; eapply Forall_impl; [|exact Hg]; cbv beta; tauto).
  assert (Hyr : tier_df RED (yellow_df data) = [])
    by (apply DeleteFacts.filter_drop_all; eapply Forall_impl; [|exact Hy]; cbv beta; tauto).
  split; [|split; [|split]].
  - change (tier_df GREEN kept = green_df data). rewrite Happ, Hgg, Hyg. apply app_nil_r.
  - change (tier_df YELLOW kept = yellow_df data). rewrite Happ, Hgy, Hyy. reflexivity.
  - change (tier_df RED kept = []). rewrite Happ, Hgr, Hyr. reflexivity.
  - unfold kept. rewrite length_app, <- (AnalysisFacts.run_analysis_length is_important pii_hits df).
    apply AnalysisFacts.partition, H.
Qed.

(** ** Record generation of generator.py *)

(** X16. [_system_name()] always fits the 20-character name field: for
    every prefix and zone of its lists and every [n <= 99] the name has at
    most 15 characters, and the record's name field carries it through the
    reader unchanged. *)
Theorem system_name_fits (prefix zone : list N) (n : N) :
  In prefix prefixes -> In zone zones -> (n <= 99)%N ->
  (length (_system_name prefix zone n) <= 15)%nat
  /\ exists bs, encode_text (_system_name prefix zone n) 20 = Some bs /\ length bs = 20%nat
       /\ decode_text bs = Some (_system_name prefix zone n).
Proof.
  intros Hp Hz Hn.
  destruct (GenFacts.system_name_plain prefix zone n Hp Hz ltac:(lia)) as [L F].
  destruct (GenFacts.plain_split _ F) as [C E].
  split; [exact L|]. apply Layout.field_roundtrip; [exact C|lia|exact E].
Qed.

Lemma system_name_fits_witness :
  In (ascii_str "SPOOL") prefixes /\ In (ascii_str "LEDGER") zones /\ (99 <= 99)%N
  /\ (length (_system_name (ascii_str "SPOOL") (ascii_str "LEDGER") 99) <= 15)%nat
  /\ exists bs, encode_text (_system_name (ascii_str "SPOOL") (ascii_str "LEDGER") 99) 20 = Some bs
       /\ length bs = 20%nat
       /\ decode_text bs = Some (_system_name (ascii_str "SPOOL") (ascii_str "LEDGER") 99).
Proof.
  assert (H1 : In (ascii_str "SPOOL") prefixes) by (vm_compute; tauto).
  assert (H2 : In (ascii_str "LEDGER") zones) by (vm_compute; tauto).
  assert (H3 : (99 <= 99)%N) by lia.
  split; [exact H1|]. split; [exact H2|]. split; [exact H3|].
  exact (system_name_fits _ _ _ H1 H2 H3).
Defined.

(** X17. [generate_log(keyword)] for a keyword of [_KW_LIST] returns at
    most 50 characters, all printable ASCII ([32 <= ord(c) < 127]),
    whatever text the model generates. *)
Theorem generate_log_fits (keyword generated_text : list N) :
  In keyword _KW_LIST ->
  (length (generate_log keyword generated_text) <= 50)%nat
  /\ Forall (fun c => (32 <= c < 127)%N) (generate_log keyword generated_text).
Proof. apply GenFacts.generate_log_ok. Qed.

Lemma generate_log_fits_witness :
  let g := ascii_str "ERROR: " ++ [233%N; 10%N] ++ ascii_str "second line" in
  In (ascii_str "ERROR") _KW_LIST
  /\ (length (generate_log (ascii_str "ERROR") g) <= 50)%nat
  /\ Forall (fun c => (32 <= c < 127)%N) (generate_log (ascii_str "ERROR") g).
Proof.
  intros g.
  assert (H : In (ascii_str "ERROR") _KW_LIST) by (vm_compute; left; reflexivity).
  split; [exact H|]. exact (generate_log_fits _ g H).
Defined.

(** X18. The file [__main__] writes: for any 50 random draws that
    [generate_record] can make (with each [fake.name()] fitting the name
    field), the loop runs to its end, writes 83 bytes per record, and the
    reader reads back one record per draw, in order, with the generated
    id, name and amount, and the log text with its edge whitespace
    removed. *)
Theorem generated_file_reads_back (draws : list draw) :
  length draws = 50%nat -> Forall draw_ok draws ->
  exists bs rs, generate_main draws = (bs, true)
    /\ length bs = (rec_len * 50)%nat
    /\ parse_mainframe_file bs = (rs, [])
    /\ Forall2 (fun jd r => exists log_text,
         generate_record (fst jd) (snd jd) = Some (rec_id r, name r, amount r, log_text)
         /\ text r = py_strip log_text)
       (combine (seq 0 50) draws) rs.
Proof.
  intros Hl Hall.
  destruct (GenFacts.generate_loop draws 0 Hall ltac:(rewrite Hl; vm_compute; discriminate))
    as (bs & rs & E & L & P & F).
  rewrite Hl in L, F. exists bs, rs. auto.
Qed.

Lemma generated_file_reads_back_witness :
  let d := mk_draw (ascii_str "AUDIT") (ascii_str " AUDIT: ledger closed ")
             (ascii_str "HOST") (ascii_str "TXN") 7 (ascii_str "Dana Scully") 4242 in
  length (repeat d 50) = 50%nat /\ Forall draw_ok (repeat d 50)
  /\ exists bs rs, generate_main (repeat d 50) = (bs, true)
       /\ length bs = (rec_len * 50)%nat
       /\ parse_mainframe_file bs = (rs, [])
       /\ Forall2 (fun jd r => exists log_text,
            generate_record (fst jd) (snd jd) = Some (rec_id r, name r, amount r, log_text)
            /\ text r = py_strip log_text)
          (combine (seq 0 50) (repeat d 50)) rs.
Proof.
  intros d.
  assert (H1 : length (repeat d 50) = 50%nat) by (apply repeat_length).
  assert (Hd : draw_ok d).
  { unfold draw_ok, d; cbn [keyword sys_prefix sys_zone sys_n draw_amount person_name].
    split; [vm_compute; tauto|]. split; [vm_compute; tauto|]. split; [vm_compute; tauto|].
    split; [lia|]. split; [lia|]. split; [apply in_cp037_b; reflexivity|].
    split; [simpl; lia|]. split; reflexivity. }
  assert (H2 : Forall draw_ok (repeat d 50))
    by (apply Forall_forall; intros x Hx; apply repeat_spec in Hx; subst x; exact Hd).
  split; [exact H1|]. split; [exact H2|]. exact (generated_file_reads_back _ H1 H2).
Defined.
